(** * MorphDetect backend: a shallow embedding of the inference pipeline

  The development follows the two Python modules of the backend:
  - [morph_detect_selfmad_official.py]: the checkpoint loader of
    [SelfMADOfficialDetector], the architecture-dependent input size and
    [detect_morphing];
  - [app.py]: the interpretation of a detector result by the two analyze
    endpoints, and the persisted history ([history.json]).

  Python floats are modelled as real numbers extended with NaN, exceptions
  as values of an error type, dictionaries as [gmap string _]. *)

From Stdlib Require Import Reals Lra ZArith String Ascii List.
From stdpp Require Import gmap strings list fin_maps.

Open Scope string_scope.

(** ** Python values *)

Module Py.

(** An exception, by class; the payload is the message or the missing key. *)
Inductive exn :=
| ValueError (msg : string)
| TypeError (msg : string)
| KeyError (key : string)
| RuntimeError (msg : string)
| IndexError (msg : string)
| AttributeError (msg : string)
| OtherError (msg : string).

(** [str(e)] *)
Definition exn_str (e : exn) : string :=
  match e with
  | ValueError m | TypeError m | RuntimeError m | IndexError m
  | AttributeError m | OtherError m => m
  | KeyError k => "'" ++ k ++ "'"
  end.

(** What a call does: it returns a value or raises. *)
Inductive outcome (A : Type) :=
| Returns (a : A)
| Raises (e : exn).
Arguments Returns {A} a.
Arguments Raises {A} e.

Definition bind {A B} (m : outcome A) (k : A -> outcome B) : outcome B :=
  match m with
  | Returns a => k a
  | Raises e => Raises e
  end.

(** [try: m  except Exception as e: h e] *)
Definition try_except {A} (m : outcome A) (h : exn -> outcome A) : outcome A :=
  match m with
  | Returns a => Returns a
  | Raises e => h e
  end.

(** A float: a real number or NaN.  Finite doubles are a subset of the
    reals; rounding of arithmetic and the two infinities are left out. *)
Inductive pyfloat :=
| FNaN
| FNum (r : R).

Definition isnan (x : pyfloat) : bool :=
  match x with FNaN => true | FNum _ => false end.

(** [x >= y]; every comparison with NaN is false. *)
Definition fge (x y : pyfloat) : bool :=
  match x, y with
  | FNum a, FNum b => if Rge_dec a b then true else false
  | _, _ => false
  end.

(** [x <= y] *)
Definition fle (x y : pyfloat) : bool :=
  match x, y with
  | FNum a, FNum b => if Rle_dec a b then true else false
  | _, _ => false
  end.

(** [x * y], exact. *)
Definition fmul (x y : pyfloat) : pyfloat :=
  match x, y with
  | FNum a, FNum b => FNum (a * b)
  | _, _ => FNaN
  end.

(** The values found in the dictionaries exchanged by the two modules. *)
#[warnings="-register-all"]
Inductive pyval :=
| PNone
| PBool (b : bool)
| PInt (z : Z)
| PFloat (f : pyfloat)
| PStr (s : string)
| PList (l : list pyval).

(** [d[k]] *)
Definition getitem (d : gmap string pyval) (k : string) : outcome pyval :=
  match d !! k with
  | Some v => Returns v
  | None => Raises (KeyError k)
  end.

(** [d.get(k, dflt)] *)
Definition get (d : gmap string pyval) (k : string) (dflt : pyval) : pyval :=
  match d !! k with
  | Some v => v
  | None => dflt
  end.

(** [needle in hay] on strings. *)
Fixpoint str_in (needle hay : string) : bool :=
  String.prefix needle hay ||
  match hay with
  | EmptyString => false
  | String _ rest => str_in needle rest
  end.

(** [s.endswith(suffix)] *)
Definition endswith (s suffix : string) : bool :=
  String.prefix (String.rev suffix) (String.rev s).

(** [s.upper()] on ASCII letters. *)
Definition upper_ascii (c : ascii) : ascii :=
  let n := nat_of_ascii c in
  if (97 <=? n)%nat && (n <=? 122)%nat then ascii_of_nat (n - 32) else c.

Fixpoint upper (s : string) : string :=
  match s with
  | EmptyString => EmptyString
  | String c rest => String (upper_ascii c) (upper rest)
  end.

End Py.

(** ** os.path *)

Module Paths.

Definition slash : ascii := "/"%char.

Definition is_slash (c : ascii) : bool := Ascii.eqb c slash.

Fixpoint drop_while (p : ascii -> bool) (l : list ascii) : list ascii :=
  match l with
  | [] => []
  | c :: rest => if p c then drop_while p rest else l
  end.

(** [os.path.dirname] (posixpath): the head up to the last slash, with its
    trailing slashes removed unless it consists of slashes only. *)
Definition dirname (p : string) : string :=
  let rhead := drop_while (fun c => negb (is_slash c)) (rev (list_ascii_of_string p)) in
  let stripped := drop_while is_slash rhead in
  string_of_list_ascii (rev (match stripped with [] => rhead | _ => stripped end)).

(** [os.path.join(a, b)] for a relative component [b]. *)
Definition join (a b : string) : string :=
  if String.eqb a "" then b
  else if Py.endswith a "/" then a ++ b
  else a ++ "/" ++ b.

End Paths.

(** ** morph_detect_selfmad_official.py: the checkpoint loader *)

Module Loader.
Import Py.

Section WithWeights.

(** [W]: an object handed to [load_state_dict]. *)
Context {W : Type}.

(** What [torch.load] or [pickle.load] gives back: a [dict] or another
    object. *)
Inductive checkpoint :=
| CkDict (d : gmap string W)
| CkOther (w : W).

(** The file system and the two libraries, as far as the loader looks at
    them.  A deserialiser answers [None] when it raises. *)
Record env := {
  torch_load : string -> option checkpoint;
  pickle_load : string -> option checkpoint;
  isdir : string -> bool;
  path_exists : string -> bool;
  (** [load_state_dict] returns normally on this object *)
  accepts : W -> bool;
}.

(** The three places where a deserialised object is probed for keys. *)
Inductive strategy := Standard | Tar | Pickle.

(** One call of [self.model.load_state_dict]: where the object came from,
    under which key it was found ([None]: the object itself) and the
    object. *)
Record attempt := {
  via : strategy;
  src : string;
  key : option string;
  val : W;
}.

(** [self.model]: the object of the last [load_state_dict] call that
    returned ([None]: no call returned, the network is as it was built)
    and every [load_state_dict] call made, oldest first.  What a call that
    raises has copied into the tensors before raising is not tracked. *)
Record model := {
  weights : option W;
  attempts : list attempt;
}.

Definition fresh_model : model := {| weights := None; attempts := [] |}.

(** The deserialiser a strategy calls. *)
Definition deserialise (E : env) (s : strategy) (p : string) : option checkpoint :=
  match s with
  | Standard | Tar => torch_load E p
  | Pickle => pickle_load E p
  end.

Definition load_state_dict (E : env) (a : attempt) (m : model) : outcome unit * model :=
  if accepts E (val a)
  then (Returns tt, {| weights := Some (val a); attempts := attempts m ++ [a] |})
  else (Raises (RuntimeError "Error(s) in loading state_dict"),
        {| weights := weights m; attempts := attempts m ++ [a] |}).

(** The tail of the [try] blocks of the three helpers:
    [load_state_dict(...); return True], under [except Exception: return False]. *)
Definition apply_or_false (E : env) (a : attempt) (m : model) : bool * model :=
  match load_state_dict E a m with
  | (Returns _, m') => (true, m')
  | (Raises _, m') => (false, m')
  end.

(** [_load_from_tar_file], lines 156-184. *)
Definition _load_from_tar_file (E : env) (tar_path : string) (m : model) : bool * model :=
  match torch_load E tar_path with
  | None => (false, m)
  | Some (CkDict d) =>
      match d !! "model" with
      | Some w => apply_or_false E {| via := Tar; src := tar_path; key := Some "model"; val := w |} m
      | None =>
          match d !! "state_dict" with
          | Some w => apply_or_false E {| via := Tar; src := tar_path; key := Some "state_dict"; val := w |} m
          | None => (false, m)
          end
      end
  | Some (CkOther _) => (false, m)
  end.

(** [_load_from_pickle_file], lines 231-267. *)
Definition _load_from_pickle_file (E : env) (pickle_path : string) (m : model) : bool * model :=
  match pickle_load E pickle_path with
  | None => (false, m)
  | Some (CkDict d) =>
      match d !! "model" with
      | Some w => apply_or_false E {| via := Pickle; src := pickle_path; key := Some "model"; val := w |} m
      | None =>
          match d !! "state_dict" with
          | Some w => apply_or_false E {| via := Pickle; src := pickle_path; key := Some "state_dict"; val := w |} m
          | None =>
              match d !! "weights" with
              | Some w => apply_or_false E {| via := Pickle; src := pickle_path; key := Some "weights"; val := w |} m
              | None => (false, m)
              end
          end
      end
  | Some (CkOther _) => (false, m)
  end.

(** [_load_from_data_directory], lines 208-229.  [depth] is the number of
    nested calls the interpreter still allows: past it the call raises
    [RecursionError], which the caller's [except Exception] turns into
    [False]. *)
Fixpoint _load_from_data_directory (depth : nat) (E : env) (directory_path : string)
    (m : model) : bool * model :=
  match depth with
  | O => (false, m)
  | S depth' =>
      let data_pkl_path := Paths.join directory_path "data.pkl" in
      if path_exists E data_pkl_path then _load_from_pickle_file E data_pkl_path m
      else
        let data_dir := Paths.join directory_path ".data" in
        if isdir E data_dir then _load_from_data_directory depth' E data_dir m
        else (false, m)
  end.

(** [_try_alternative_loading], lines 186-206. *)
Definition _try_alternative_loading (depth : nat) (E : env) (model_path : string)
    (m : model) : bool * model :=
  if isdir E model_path then _load_from_data_directory depth E model_path m
  else if endswith model_path ".pkl" then _load_from_pickle_file E model_path m
  else
    let parent_dir := Paths.dirname model_path in
    if isdir E parent_dir then _load_from_data_directory depth E parent_dir m
    else (false, m).

(** What [load_model] returns: [None], or the boolean of the .tar helper. *)
Inductive retval := RNone | RBool (b : bool).

(** The [try] block of [load_model], lines 124-144. *)
Definition standard_load (E : env) (model_path : string) (m : model) : outcome unit * model :=
  match torch_load E model_path with
  | None => (Raises (OtherError "torch.load"), m)
  | Some (CkDict d) =>
      match d !! "model" with
      | Some w => load_state_dict E {| via := Standard; src := model_path; key := Some "model"; val := w |} m
      | None =>
          match d !! "state_dict" with
          | Some w =>
              load_state_dict E {| via := Standard; src := model_path; key := Some "state_dict"; val := w |} m
          | None => (Raises (ValueError "No 'model' or 'state_dict' key found in checkpoint"), m)
          end
      end
  | Some (CkOther w) =>
      load_state_dict E {| via := Standard; src := model_path; key := None; val := w |} m
  end.

(** [load_model], lines 115-154. *)
Definition load_model (depth : nat) (E : env) (model_path : string) (m : model)
    : outcome retval * model :=
  if endswith model_path ".tar" then
    let '(b, m') := _load_from_tar_file E model_path m in (Returns (RBool b), m')
  else
    match standard_load E model_path m with
    | (Returns _, m') => (Returns RNone, m')
    | (Raises _, m') =>
        let '(ok, m'') := _try_alternative_loading depth E model_path m' in
        if ok then (Returns RNone, m'')
        else (Raises (RuntimeError
                "❌ Failed to load HRNet model from checkpoint. All loading methods failed."), m'')
    end.

End WithWeights.

Arguments checkpoint W : clear implicits.
Arguments env W : clear implicits.
Arguments attempt W : clear implicits.
Arguments model W : clear implicits.

End Loader.

(** ** morph_detect_selfmad_official.py: the detector *)

Module Detector.
Import Py.

(** [SelfMADOfficialDetector.__init__], lines 96-111: the image size is
    chosen from the substrings of the model type. *)
Definition image_size (model_type : string) : Z :=
  if str_in "hrnet" model_type then 384
  else if str_in "efficientnet" model_type then
    if str_in "b0" model_type then 224
    else if str_in "b4" model_type then 380
    else 224
  else if str_in "swin" model_type then 224
  else if str_in "resnet" model_type then 224
  else 380.

(** The attributes of a [SelfMADOfficialDetector]. *)
Record detector (W : Type) := {
  self_model_type : string;
  self_model : Loader.model W;
  self_image_size : Z;
}.
Arguments self_model_type {W} _.
Arguments self_model {W} _.
Arguments self_image_size {W} _.

(** [SelfMADOfficialDetector.__init__], lines 86-113, as far as the
    checkpoint and the image size go: the construction of the network
    (line 88) and its move to the device (line 94) are steps of
    [Requests.new_detector].  The value returned by [load_model] is
    dropped. *)
Definition init {W} (depth : nat) (E : Loader.env W) (model_path : option string)
    (model_type : string) : outcome (detector W) :=
  let loaded :=
    match model_path with
    | Some p =>
        if negb (String.eqb p "") && Loader.path_exists E p
        then Loader.load_model depth E p Loader.fresh_model
        else (Returns Loader.RNone, Loader.fresh_model)
    | None => (Returns Loader.RNone, Loader.fresh_model)
    end in
  match loaded with
  | (Raises e, _) => Raises e
  | (Returns _, m) =>
      Returns {| self_model_type := model_type;
                 self_model := m;
                 self_image_size := image_size model_type |}
  end.

(** [output.cpu().data.numpy()[0]]: a one-dimensional array, or a NumPy
    scalar when the output has a single axis. *)
Inductive logits :=
| LVec (l : list pyfloat)
| LScalar (x : pyfloat).

(** What [detect_morphing] calls: [preprocess_image] at an image size, the
    forward pass up to the extraction of the logits, and whether
    [F.softmax] raises on an array. *)
Record runtime (T : Type) := {
  preprocess_image : Z -> string -> outcome T;
  forward : T -> outcome logits;
  softmax_raises : list pyfloat -> bool;
}.
Arguments preprocess_image {T} _ _ _.
Arguments forward {T} _ _.
Arguments softmax_raises {T} _ _.

(** Lines 303-307: [float(logits[1])] for two scores or more, else
    [float(logits)]. *)
Definition raw_logit_of (lg : logits) : outcome pyfloat :=
  match lg with
  | LVec l =>
      if (2 <=? length l)%nat then Returns (nth 1 l FNaN)
      else
        match l with
        | [x] => Returns x
        | _ => Raises (TypeError "only length-1 arrays can be converted to Python scalars")
        end
  | LScalar x => Returns x
  end.

(** The scan of [np.argmax]: the first maximum wins, and so does the first
    NaN. *)
Fixpoint argmax_from (best : pyfloat) (best_i i : nat) (l : list pyfloat) : nat :=
  match l with
  | [] => best_i
  | x :: rest =>
      if isnan best then best_i
      else if fle x best then argmax_from best best_i (S i) rest
      else argmax_from x i (S i) rest
  end.

(** Line 309: [int(np.argmax(logits))]. *)
Definition np_argmax (lg : logits) : outcome Z :=
  match lg with
  | LScalar _ => Returns 0%Z
  | LVec [] => Raises (ValueError "attempt to get argmax of an empty sequence")
  | LVec (x :: rest) => Returns (Z.of_nat (argmax_from x 0 1 rest))
  end.

Fixpoint reals_of (l : list pyfloat) : option (list R) :=
  match l with
  | [] => Some []
  | FNaN :: _ => None
  | FNum r :: rest =>
      match reals_of rest with
      | Some rs => Some (r :: rs)
      | None => None
      end
  end.

Definition exp_sum (rs : list R) : R :=
  fold_right (fun x acc => (exp x + acc)%R) 0%R rs.

(** [F.softmax(_, dim=0)] on real scores, in exact arithmetic (the
    rounding of the 32-bit floats is left out); one NaN makes every
    component NaN. *)
Definition softmax (l : list pyfloat) : list pyfloat :=
  match reals_of l with
  | Some rs => map (fun x => FNum (exp x / exp_sum rs)) rs
  | None => map (fun _ => FNaN) l
  end.

(** [1.0 / (1.0 + np.exp(-x))] *)
Definition sigmoid (x : pyfloat) : pyfloat :=
  match x with
  | FNaN => FNaN
  | FNum r => FNum (1 / (1 + exp (- r)))
  end.

(** Lines 311-313, the body of the inner [try]. *)
Definition softmax_prob {T} (rt : runtime T) (lg : logits) : outcome pyfloat :=
  match lg with
  | LScalar _ => Raises (TypeError "expected np.ndarray (got numpy.float32)")
  | LVec l =>
      if softmax_raises rt l then Raises (RuntimeError "softmax")
      else
        let probs := softmax l in
        if (1 <? length probs)%nat then Returns (nth 1 probs FNaN)
        else
          match probs with
          | p :: _ => Returns p
          | [] => Raises (IndexError "index 0 is out of bounds for axis 0 with size 0")
          end
  end.

(** Lines 311-316: the softmax probability, or the sigmoid of the raw
    logit when the softmax raised. *)
Definition prob_morphed_of {T} (rt : runtime T) (lg : logits) (raw_logit : pyfloat) : pyfloat :=
  match softmax_prob rt lg with
  | Returns p => p
  | Raises _ => sigmoid raw_logit
  end.

(** Lines 319-326: the dictionary of a completed detection. *)
Definition result_dict (image_path model_type : string) (raw_logit : pyfloat)
    (predicted_class : Z) (prob_morphed : pyfloat) : gmap string pyval :=
  <["image" := PStr image_path]>
  (<["raw_logit" := PFloat raw_logit]>
  (<["predicted_class" := PInt predicted_class]>
  (<["prob_morphed" := PFloat prob_morphed]>
  (<["class_name" := PStr (if (predicted_class =? 1)%Z then "MORPHED" else "GENUINE")]>
  (<["model" := PStr ("SelfMAD " ++ upper model_type)]> ∅))))).

(** Lines 329-335: the dictionary built by the handler. *)
Definition error_dict (image_path : string) (e : exn) : gmap string pyval :=
  <["image" := PStr image_path]>
  (<["error" := PStr (exn_str e)]>
  (<["raw_logit" := PNone]>
  (<["predicted_class" := PNone]>
  (<["class_name" := PNone]> ∅)))).

(** [detect_morphing], lines 291-335. *)
Definition detect_morphing {T W} (rt : runtime T) (self : detector W) (image_path : string)
    : outcome (gmap string pyval) :=
  try_except
    (bind (preprocess_image rt (self_image_size self) image_path) (fun img_tensor =>
     bind (forward rt img_tensor) (fun lg =>
     bind (raw_logit_of lg) (fun raw_logit =>
     bind (np_argmax lg) (fun predicted_class =>
     let prob_morphed := prob_morphed_of rt lg raw_logit in
     Returns (result_dict image_path (self_model_type self)
                raw_logit predicted_class prob_morphed))))))
    (fun e => Returns (error_dict image_path e)).

End Detector.

(** ** app.py: the persisted history *)

Module History.

Section Store.

(** [entry]: one element of the array kept in [history.json]. *)
Context {entry : Type}.

(** What [json.load] gives back: an array, or a document of another
    shape (an object, a number, ...). *)
Inductive document :=
| JArray (l : list entry)
| JOther.

(** [history.json]: not there, there with text that is no JSON, or there
    with a document. *)
Inductive artifact :=
| Missing
| Corrupt
| Stored (d : document).

(** Lines 203-209 (and 328-334): the log read before a summary is added;
    a parse error is swallowed. *)
Definition read_log (a : artifact) : document :=
  match a with
  | Missing => JArray []
  | Corrupt => JArray []
  | Stored d => d
  end.

(** Lines 199-229 (and 325-352): the summary goes to the front, the first
    100 entries are written back.  On a document that is no list,
    [history.insert] raises; the handler logs a warning and nothing is
    written. *)
Definition persist_summary (summary : entry) (a : artifact) : artifact :=
  match read_log a with
  | JArray history => Stored (JArray (firstn 100 (summary :: history)))
  | JOther => a
  end.

(** The answers of [GET /api/history]. *)
Inductive history_body :=
| HistorySuccess (history : document)
| HistoryError (message : string).

(** [get_history], lines 365-385: status code and body. *)
Definition get_history (a : artifact) : Z * history_body :=
  match a with
  | Missing => (200%Z, HistorySuccess (JArray []))
  | Stored d => (200%Z, HistorySuccess d)
  | Corrupt => (500%Z, HistoryError "Failed to read history")
  end.

(** The file can be read as a list: it is missing, corrupt, or holds an
    array. *)
Definition log_like (a : artifact) : bool :=
  match a with
  | Stored JOther => false
  | _ => true
  end.

(** The entries a summary is added to. *)
Definition entries (a : artifact) : list entry :=
  match read_log a with
  | JArray history => history
  | JOther => []
  end.

(** A run of analyses, each persisting its summary, oldest first. *)
Definition persist_all (summaries : list entry) (a : artifact) : artifact :=
  fold_left (fun acc s => persist_summary s acc) summaries a.

End Store.

Arguments document entry : clear implicits.
Arguments artifact entry : clear implicits.
Arguments history_body entry : clear implicits.

End History.

(** ** app.py: the analyze endpoints *)

Module App.
Import Py.

(** Lines 170-177 (and 298-305). *)
Definition risk_level (prob : pyfloat) : string :=
  if fge prob (FNum 0.9) then "CRITICAL"
  else if fge prob (FNum 0.75) then "HIGH"
  else if fge prob (FNum 0.5) then "MEDIUM"
  else "LOW".

(** Round to the nearest integer, ties to the even one. *)
Definition round_half_even (r : R) : Z :=
  let f := Int_part r in
  let d := (r - IZR f)%R in
  if Rlt_dec d (1 / 2) then f
  else if Rlt_dec (1 / 2) d then (f + 1)%Z
  else if Z.even f then f else (f + 1)%Z.

(** [round(x, 1)], on the exact real: the rounding of the double that the
    code rounds is left out. *)
Definition round1 (x : pyfloat) : pyfloat :=
  match x with
  | FNaN => FNaN
  | FNum r => FNum (IZR (round_half_even (r * 10)) / 10)
  end.

(** [v == 1] *)
Definition eq_one (v : pyval) : bool :=
  match v with
  | PInt z => (z =? 1)%Z
  | PBool b => b
  | PFloat (FNum r) => if Req_dec_T r 1 then true else false
  | _ => false
  end.

(** [format(v, '.4f')], as far as it returns or raises. *)
Definition format_4f (v : pyval) : outcome unit :=
  match v with
  | PInt _ | PBool _ | PFloat _ => Returns tt
  | PNone => Raises (TypeError "unsupported format string passed to NoneType.__format__")
  | PStr _ => Raises (ValueError "Unknown format code 'f' for object of type 'str'")
  | PList _ => Raises (TypeError "unsupported format string passed to list.__format__")
  end.

(** The JSON object of a successful analysis. *)
Record analysis_result := {
  status : string;
  analysis_id : string;
  timestamp : string;
  filename : option string;
  result_raw_logit : pyval;
  result_predicted_class : pyval;
  result_class_name : pyval;
  result_confidence : pyfloat;
  result_model : pyval;
  is_morphed : bool;
  interpretation_risk_level : string;
}.

(** The compact summary kept in the history. *)
Record summary := {
  s_analysis_id : string;
  s_timestamp : string;
  s_filename : string;
  s_class_name : pyval;
  s_confidence : pyfloat;
  s_risk_level : string;
  s_regions : pyval;
  s_processing_time_ms : pyval;
  s_thumbnail_url : string;
}.

(** The [error] texts of the endpoints, with what they are built from. *)
Inductive error_text :=
| ModelNotInitialized
| DetectionFailed (detail : pyval)
| AnalysisFailed (e : exn).

Inductive body :=
| Success (r : analysis_result)
| Error (msg : error_text).

Section Endpoints.

(** [float(s)] on a string: the float it denotes, or [None] when it
    raises [ValueError]. *)
Variable float_of_str : string -> option pyfloat.

(** [float(v)] *)
Definition py_float (v : pyval) : outcome pyfloat :=
  match v with
  | PFloat f => Returns f
  | PInt z => Returns (FNum (IZR z))
  | PBool b => Returns (FNum (if b then 1 else 0))
  | PStr s =>
      match float_of_str s with
      | Some f => Returns f
      | None => Raises (ValueError "could not convert string to float")
      end
  | PNone => Raises (TypeError "float() argument must be a string or a real number, not 'NoneType'")
  | PList _ => Raises (TypeError "float() argument must be a string or a real number, not 'list'")
  end.

(** Lines 231 and 354: the log line indexes [class_name] and [raw_logit]
    and formats the latter with [.4f]. *)
Definition log_completed (result : gmap string pyval) : outcome unit :=
  bind (getitem result "class_name") (fun _ =>
  bind (getitem result "raw_logit") (fun raw => format_4f raw)).

(** Lines 153-240 of [analyze_image] and 287-363 of
    [analyze_image_base64]: from the detector's result to the response and
    the history file.  [with_filename] tells the first endpoint, whose
    response carries the file name, from the second. *)
Definition respond (with_filename : bool) (stored_name id now : string)
    (result : gmap string pyval) (hist : History.artifact summary)
    : (Z * body) * History.artifact summary :=
  match result !! "error" with
  | Some detail => ((500%Z, Error (DetectionFailed detail)), hist)
  | None =>
      match py_float (get result "prob_morphed" (PFloat (FNum 0))) with
      | Raises e => ((500%Z, Error (AnalysisFailed e)), hist)
      | Returns prob =>
          let confidence_pct := round1 (fmul prob (FNum 100)) in
          let morphed := eq_one (get result "predicted_class" PNone) in
          let risk := risk_level prob in
          let analysis :=
            {| status := "success";
               analysis_id := id;
               timestamp := now;
               filename := if with_filename then Some stored_name else None;
               result_raw_logit := get result "raw_logit" PNone;
               result_predicted_class := get result "predicted_class" PNone;
               result_class_name := get result "class_name" PNone;
               result_confidence := confidence_pct;
               result_model := get result "model" PNone;
               is_morphed := morphed;
               interpretation_risk_level := risk |} in
          let hist' :=
            History.persist_summary
              {| s_analysis_id := id;
                 s_timestamp := now;
                 s_filename := stored_name;
                 s_class_name := result_class_name analysis;
                 s_confidence := result_confidence analysis;
                 s_risk_level := interpretation_risk_level analysis;
                 s_regions := get result "regions" (PList []);
                 s_processing_time_ms := get result "processing_time_ms" (PInt 0);
                 s_thumbnail_url := "/uploads/" ++ stored_name |}
              hist in
          match log_completed result with
          | Raises e => ((500%Z, Error (AnalysisFailed e)), hist')
          | Returns _ => ((200%Z, Success analysis), hist')
          end
      end
  end.

(** [analyze_image] from line 142 on: the upload has been checked and
    saved as [unique_filename] at [file_path].  [detector] is the module's
    detector, [None] until a model has been initialised. *)
Definition analyze_image (detector : option (string -> outcome (gmap string pyval)))
    (file_path unique_filename id now : string) (hist : History.artifact summary)
    : (Z * body) * History.artifact summary :=
  match detector with
  | None => ((500%Z, Error ModelNotInitialized), hist)
  | Some detect_morphing =>
      match detect_morphing file_path with
      | Raises e => ((500%Z, Error (AnalysisFailed e)), hist)
      | Returns result => respond true unique_filename id now result hist
      end
  end.

(** [analyze_image_base64] from line 270 on: the decoded bytes have been
    written to [temp_path] under the name [temp_filename]. *)
Definition analyze_image_base64 (detector : option (string -> outcome (gmap string pyval)))
    (temp_path temp_filename id now : string) (hist : History.artifact summary)
    : (Z * body) * History.artifact summary :=
  match detector with
  | None => ((500%Z, Error ModelNotInitialized), hist)
  | Some detect_morphing =>
      match detect_morphing temp_path with
      | Raises e => ((500%Z, Error (AnalysisFailed e)), hist)
      | Returns result => respond false temp_filename id now result hist
      end
  end.

End Endpoints.

End App.

(** ** More of Python's strings *)

Module PyStr.
Import Py.

(** [s.lower()] on ASCII letters.  No character outside ASCII lowers to
    one of the letters compared with below. *)
Definition lower_ascii (c : ascii) : ascii :=
  let n := nat_of_ascii c in
  if (65 <=? n)%nat && (n <=? 90)%nat then ascii_of_nat (n + 32) else c.

Fixpoint lower (s : string) : string :=
  match s with
  | EmptyString => EmptyString
  | String c rest => String (lower_ascii c) (lower rest)
  end.

(** The text after the last [sep], if [s] has one. *)
Fixpoint after_last (sep : ascii) (s : string) : option string :=
  match s with
  | EmptyString => None
  | String c rest =>
      match after_last sep rest with
      | Some t => Some t
      | None => if Ascii.eqb c sep then Some rest else None
      end
  end.

(** [s.rsplit(sep, 1)[1]] *)
Definition rsplit1_1 (sep : ascii) (s : string) : outcome string :=
  match after_last sep s with
  | Some t => Returns t
  | None => Raises (IndexError "list index out of range")
  end.

(** [s.split(sep)] *)
Fixpoint split (sep : ascii) (s : string) : list string :=
  match s with
  | EmptyString => [EmptyString]
  | String c rest =>
      if Ascii.eqb c sep then EmptyString :: split sep rest
      else
        match split sep rest with
        | h :: t => String c h :: t
        | [] => [String c EmptyString]
        end
  end.

(** [x in xs] on a collection of strings. *)
Definition str_mem (x : string) (xs : list string) : bool :=
  existsb (String.eqb x) xs.

End PyStr.

(** ** config.py *)

Module Config.
Import Py.

(** The attributes of a configuration class that the backend reads. *)
Record config := {
  DEBUG : bool;
  LOG_LEVEL : string;
  UPLOAD_FOLDER : string;
  ALLOWED_EXTENSIONS : list string;
  MODEL_PATH : string;
  MODEL_TYPE : string;
}.

(** [os.environ.get(k, dflt)] *)
Definition environ_get (environ : gmap string string) (k dflt : string) : string :=
  match environ !! k with
  | Some v => v
  | None => dflt
  end.

(** [class Config], lines 13-43. *)
Definition Config (base_dir : string) (environ : gmap string string) : config :=
  {| DEBUG := String.eqb (PyStr.lower (environ_get environ "FLASK_DEBUG" "true")) "true";
     LOG_LEVEL := environ_get environ "LOG_LEVEL" "INFO";
     UPLOAD_FOLDER := Paths.join base_dir "uploads";
     ALLOWED_EXTENSIONS := ["png"; "jpg"; "jpeg"; "gif"; "bmp"; "tiff"];
     MODEL_PATH := environ_get environ "MODEL_PATH" "";
     MODEL_TYPE := environ_get environ "MODEL_TYPE" "efficientnet-b0" |}.

(** [class DevelopmentConfig(Config)], lines 45-48. *)
Definition DevelopmentConfig (base_dir : string) (environ : gmap string string) : config :=
  let c := Config base_dir environ in
  {| DEBUG := true;
     LOG_LEVEL := "DEBUG";
     UPLOAD_FOLDER := UPLOAD_FOLDER c;
     ALLOWED_EXTENSIONS := ALLOWED_EXTENSIONS c;
     MODEL_PATH := MODEL_PATH c;
     MODEL_TYPE := MODEL_TYPE c |}.

(** [class ProductionConfig(Config)], lines 50-54. *)
Definition ProductionConfig (base_dir : string) (environ : gmap string string) : config :=
  let c := Config base_dir environ in
  {| DEBUG := false;
     LOG_LEVEL := "WARNING";
     UPLOAD_FOLDER := UPLOAD_FOLDER c;
     ALLOWED_EXTENSIONS := ALLOWED_EXTENSIONS c;
     MODEL_PATH := MODEL_PATH c;
     MODEL_TYPE := MODEL_TYPE c |}.

(** [class TestingConfig(Config)], lines 56-60. *)
Definition TestingConfig (base_dir : string) (environ : gmap string string) : config :=
  let c := Config base_dir environ in
  {| DEBUG := true;
     LOG_LEVEL := LOG_LEVEL c;
     UPLOAD_FOLDER := Paths.join (Paths.join base_dir "temp") "test_uploads";
     ALLOWED_EXTENSIONS := ALLOWED_EXTENSIONS c;
     MODEL_PATH := MODEL_PATH c;
     MODEL_TYPE := MODEL_TYPE c |}.

(** The dictionary [config], lines 63-68. *)
Definition config_by_name (base_dir : string) (environ : gmap string string)
    : gmap string config :=
  <["development" := DevelopmentConfig base_dir environ]>
  (<["production" := ProductionConfig base_dir environ]>
  (<["testing" := TestingConfig base_dir environ]>
  (<["default" := DevelopmentConfig base_dir environ]> ∅))).

(** [get_config], lines 70-73. *)
Definition get_config (base_dir : string) (environ : gmap string string) : config :=
  let env := environ_get environ "FLASK_ENV" "development" in
  match config_by_name base_dir environ !! env with
  | Some c => c
  | None => DevelopmentConfig base_dir environ
  end.

End Config.

(** ** The network of [class Detector] *)

Module Network.

(** [Detector.__init__], lines 55-77: the backbone built for a model name;
    no branch assigns [self.net] for another name. *)
Definition net_of (model : string) : option string :=
  if String.eqb model "efficientnet-b0" then Some "efficientnet-b0"
  else if String.eqb model "efficientnet-b4" then Some "efficientnet-b4"
  else if String.eqb model "swin" then Some "swin_v2_b"
  else if String.eqb model "resnet" then Some "resnet152"
  else if String.eqb model "hrnet_w18" then Some "hrnet_w18"
  else if String.eqb model "hrnet_w32" then Some "hrnet_w32"
  else if String.eqb model "hrnet_w44" then Some "hrnet_w44"
  else if String.eqb model "hrnet_w64" then Some "hrnet_w64"
  else None.

End Network.

(** ** app.py: requests *)

Module Requests.
Import Py.

(** [allowed_file], lines 56-59. *)
Definition allowed_file (cfg : Config.config) (filename : string) : bool :=
  str_in "." filename &&
  match PyStr.rsplit1_1 "."%char filename with
  | Returns ext => PyStr.str_mem (PyStr.lower ext) (Config.ALLOWED_EXTENSIONS cfg)
  | Raises _ => false
  end.

(** What the handlers take from the outside: [secure_filename], the hex
    digits of the next [uuid4], and whether writing a file succeeds. *)
Record world := {
  secure_filename : string -> string;
  uuid_hex : string;
  write_ok : bool;
}.

(** [save_uploaded_file], lines 83-98: the path and the unique name, or
    the exception it raises again.  The upload folder is joined as
    [os.path.join] does, which is what [pathlib] gives on a folder written
    without redundant slashes. *)
Definition save_uploaded_file (cfg : Config.config) (w : world) (file_filename : string)
    : outcome (string * string) :=
  let filename := secure_filename w file_filename in
  bind (PyStr.rsplit1_1 "."%char filename) (fun ext =>
  let file_extension := PyStr.lower ext in
  let unique_filename := uuid_hex w ++ "." ++ file_extension in
  let file_path := Paths.join (Config.UPLOAD_FOLDER cfg) unique_filename in
  if write_ok w then Returns (file_path, unique_filename)
  else Raises (OtherError "file.save")).

(** The [error] texts of the checks made before the detector runs. *)
Inductive request_error :=
| NoImageFile
| NoFileSelected
| FileTypeNotAllowed
| NoImageData
| InvalidBase64 (e : exn).

(** The body of an answer: a request error, or what the analysis gave. *)
Inductive reply :=
| Rejected (e : request_error)
| Analysed (b : App.body).

Section Handlers.

Variable float_of_str : string -> option pyfloat.

(** [base64.b64decode] on a string: the bytes, or the exception. *)
Context {bytes : Type}.
Variable b64decode : string -> outcome bytes.

(** [analyze_image], lines 112-240.  [image] is the file name of
    [request.files['image']], [None] without such a part. *)
Definition analyze_image (cfg : Config.config) (w : world)
    (detector : option (string -> outcome (gmap string pyval)))
    (image : option string) (id now : string) (hist : History.artifact App.summary)
    : (Z * reply) * History.artifact App.summary :=
  match image with
  | None => ((400%Z, Rejected NoImageFile), hist)
  | Some file_filename =>
      if String.eqb file_filename "" then ((400%Z, Rejected NoFileSelected), hist)
      else if negb (allowed_file cfg file_filename)
      then ((400%Z, Rejected FileTypeNotAllowed), hist)
      else
        match save_uploaded_file cfg w file_filename with
        | Raises e => ((500%Z, Analysed (App.Error (App.AnalysisFailed e))), hist)
        | Returns (file_path, unique_filename) =>
            let '((code, b), hist') :=
              App.analyze_image float_of_str detector file_path unique_filename id now hist in
            ((code, Analysed b), hist')
        end
  end.

(** Line 256: the text handed to [b64decode], for a string; any other
    value makes the expression raise. *)
Definition image_payload (v : pyval) : outcome string :=
  match v with
  | PStr s =>
      if str_in "," s then
        match nth_error (PyStr.split ","%char s) 1 with
        | Some payload => Returns payload
        | None => Raises (IndexError "list index out of range")
        end
      else Returns s
  | PList l =>
      if existsb (fun x => match x with PStr x' => String.eqb x' "," | _ => false end) l
      then Raises (AttributeError "'list' object has no attribute 'split'")
      else Raises (TypeError "argument should be a bytes-like object or ASCII string, not 'list'")
  | _ => Raises (TypeError "argument is not iterable")
  end.

(** What [request.get_json()] does: it raises (a body that is no JSON, a
    wrong content type), or gives a JSON object, or another JSON value:
    null, a boolean, a number, a string or an array. *)
Inductive json_body :=
| GetJsonRaises (e : exn)
| JsonValue (v : pyval)
| JsonObject (d : gmap string pyval).

(** [bool(v)] *)
Definition truthy (v : pyval) : bool :=
  match v with
  | PNone => false
  | PBool b => b
  | PInt z => negb (z =? 0)%Z
  | PFloat FNaN => true
  | PFloat (FNum r) => if Req_dec_T r 0 then false else true
  | PStr s => negb (String.eqb s "")
  | PList l => match l with [] => false | _ :: _ => true end
  end.

(** ['image' in v] on a value that is no object. *)
Definition image_in (v : pyval) : outcome bool :=
  match v with
  | PStr s => Returns (str_in "image" s)
  | PList l =>
      Returns (existsb (fun x => match x with PStr x' => String.eqb x' "image" | _ => false end) l)
  | PNone => Raises (TypeError "argument of type 'NoneType' is not iterable")
  | PBool _ => Raises (TypeError "argument of type 'bool' is not iterable")
  | PInt _ => Raises (TypeError "argument of type 'int' is not iterable")
  | PFloat _ => Raises (TypeError "argument of type 'float' is not iterable")
  end.

(** [v['image']] on a string or an array: it raises. *)
Definition index_by_image (v : pyval) : exn :=
  match v with
  | PList _ => TypeError "list indices must be integers or slices, not str"
  | _ => TypeError "string indices must be integers, not 'str'"
  end.

(** Lines 263-363 of [analyze_image_base64]: the decoded bytes are
    written to a temporary file and the analysis runs on it. *)
Definition analyze_decoded (cfg : Config.config) (w : world)
    (detector : option (string -> outcome (gmap string pyval)))
    (id now : string) (hist : History.artifact App.summary)
    : (Z * reply) * History.artifact App.summary :=
  let temp_filename := "temp_" ++ uuid_hex w ++ ".jpg" in
  let temp_path := Paths.join (Config.UPLOAD_FOLDER cfg) temp_filename in
  if write_ok w then
    let '((code, b), hist') :=
      App.analyze_image_base64 float_of_str detector temp_path temp_filename id now hist in
    ((code, Analysed b), hist')
  else
    ((500%Z, Analysed (App.Error (App.AnalysisFailed (OtherError "open")))), hist).

(** [analyze_image_base64], lines 243-363.  The test of line 248 is
    outside the inner [try]: what it raises is answered by the outer
    handler. *)
Definition analyze_image_base64 (cfg : Config.config) (w : world)
    (detector : option (string -> outcome (gmap string pyval)))
    (body : json_body) (id now : string)
    (hist : History.artifact App.summary)
    : (Z * reply) * History.artifact App.summary :=
  match body with
  | GetJsonRaises e => ((500%Z, Analysed (App.Error (App.AnalysisFailed e))), hist)
  | JsonValue v =>
      if negb (truthy v) then ((400%Z, Rejected NoImageData), hist)
      else
        match image_in v with
        | Raises e => ((500%Z, Analysed (App.Error (App.AnalysisFailed e))), hist)
        | Returns false => ((400%Z, Rejected NoImageData), hist)
        | Returns true => ((400%Z, Rejected (InvalidBase64 (index_by_image v))), hist)
        end
  | JsonObject d =>
      if decide (d = ∅) then ((400%Z, Rejected NoImageData), hist)
      else
        match d !! "image" with
        | None => ((400%Z, Rejected NoImageData), hist)
        | Some v =>
            match bind (image_payload v) b64decode with
            | Raises e => ((400%Z, Rejected (InvalidBase64 e)), hist)
            | Returns image_data => analyze_decoded cfg w detector id now hist
            end
        end
  end.

End Handlers.

(** The module's state: whether the detector module could be imported,
    and the detector, [None] until one is initialised. *)
Record server (W : Type) := {
  MODEL_AVAILABLE : bool;
  detector : option (Detector.detector W);
}.
Arguments MODEL_AVAILABLE {W} _.
Arguments detector {W} _.

(** What the construction of a detector takes from the outside:
    [Detector(model=model_type)] (line 88), which builds the pretrained
    network, and [self.model.to(DEVICE)] (line 94); each returns or
    raises. *)
Record platform := {
  build_network : string -> outcome unit;
  to_device : outcome unit;
}.

(** [SelfMADOfficialDetector(model_path, model_type)], lines 86-113: the
    network is built, the checkpoint is loaded and the image size chosen
    ([Detector.init]), and the network is moved to the device. *)
Definition new_detector {W} (pf : platform) (depth : nat) (E : Loader.env W)
    (model_path : option string) (model_type : string) : outcome (Detector.detector W) :=
  bind (build_network pf model_type) (fun _ =>
  bind (Detector.init depth E model_path model_type) (fun d =>
  bind (to_device pf) (fun _ => Returns d))).

(** [initialize_model], lines 61-77: the value returned and the state. *)
Definition initialize_model {W} (pf : platform) (depth : nat) (E : Loader.env W)
    (cfg : Config.config) (srv : server W) : bool * server W :=
  if negb (MODEL_AVAILABLE srv) then (false, srv)
  else
    match new_detector pf depth E (Some (Config.MODEL_PATH cfg)) (Config.MODEL_TYPE cfg) with
    | Returns d => (true, {| MODEL_AVAILABLE := MODEL_AVAILABLE srv; detector := Some d |})
    | Raises _ => (false, srv)
    end.

(** The answer of [GET /api/health], without its time stamp. *)
Record health := {
  health_status : string;
  model_loaded : bool;
  model_type : string;
  model_available : bool;
  server_version : string;
}.

(** [health_check], lines 100-110. *)
Definition health_check {W} (cfg : Config.config) (srv : server W) : health :=
  {| health_status := "healthy";
     model_loaded := match detector srv with Some _ => true | None => false end;
     model_type := Config.MODEL_TYPE cfg;
     model_available := MODEL_AVAILABLE srv;
     server_version := "1.0.0" |}.

End Requests.

(** * Concrete inputs *)

Module Inputs.
Import Py.

(** A checkpoint mapping with both keys; the weights are numbered. *)
Definition both_keys : gmap string nat :=
  <["model" := 1%nat]> (<["state_dict" := 2%nat]> ∅).

(** Every file deserialises to [both_keys], and every object loads. *)
Definition env_both_keys : Loader.env nat :=
  {| Loader.torch_load := fun _ => Some (Loader.CkDict both_keys);
     Loader.pickle_load := fun _ => Some (Loader.CkDict both_keys);
     Loader.isdir := fun _ => false;
     Loader.path_exists := fun _ => true;
     Loader.accepts := fun _ => true |}.

(** The files exist and no deserialiser can read them. *)
Definition env_unreadable : Loader.env nat :=
  {| Loader.torch_load := fun _ => None;
     Loader.pickle_load := fun _ => None;
     Loader.isdir := fun _ => false;
     Loader.path_exists := fun _ => true;
     Loader.accepts := fun _ => true |}.

(** A detector for "efficientnet-b0" with the weights of the fresh
    architecture. *)
Definition detector_b0 : Detector.detector nat :=
  {| Detector.self_model_type := "efficientnet-b0";
     Detector.self_model := Loader.fresh_model;
     Detector.self_image_size := 224%Z |}.

(** The image is read, and the forward pass rejects its shape. *)
Definition rt_shape_mismatch : Detector.runtime unit :=
  {| Detector.preprocess_image := fun _ _ => Returns tt;
     Detector.forward := fun _ =>
       Raises (RuntimeError "Given groups=1, expected input to have 3 channels, but got 4 channels instead");
     Detector.softmax_raises := fun _ => false |}.

(** The forward pass gives the logits [lg]; [F.softmax] raises or not. *)
Definition rt_scores (lg : Detector.logits) (raises : bool) : Detector.runtime unit :=
  {| Detector.preprocess_image := fun _ _ => Returns tt;
     Detector.forward := fun _ => Returns lg;
     Detector.softmax_raises := fun _ => raises |}.


(** A result that holds the image path only. *)
Definition result_image_only : gmap string pyval :=
  <["image" := PStr "face.png"]> ∅.

(** Every file deserialises to [both_keys], and no object loads. *)
Definition env_rejecting : Loader.env nat :=
  {| Loader.torch_load := fun _ => Some (Loader.CkDict both_keys);
     Loader.pickle_load := fun _ => Some (Loader.CkDict both_keys);
     Loader.isdir := fun _ => false;
     Loader.path_exists := fun _ => true;
     Loader.accepts := fun _ => false |}.

(** A pickled mapping with a "weights" entry only. *)
Definition weights_only : gmap string nat := <["weights" := 7%nat]> ∅.

Definition env_weights_only : Loader.env nat :=
  {| Loader.torch_load := fun _ => Some (Loader.CkDict weights_only);
     Loader.pickle_load := fun _ => Some (Loader.CkDict weights_only);
     Loader.isdir := fun _ => false;
     Loader.path_exists := fun _ => true;
     Loader.accepts := fun _ => true |}.

(** A directory "ckpt" whose "data.pkl" lies two ".data" levels down. *)
Definition env_nested : Loader.env nat :=
  {| Loader.torch_load := fun _ => None;
     Loader.pickle_load := fun _ => Some (Loader.CkDict both_keys);
     Loader.isdir := fun p =>
       String.eqb p "ckpt" || String.eqb p "ckpt/.data" || String.eqb p "ckpt/.data/.data";
     Loader.path_exists := fun p => String.eqb p "ckpt/.data/.data/data.pkl";
     Loader.accepts := fun _ => true |}.

(** The configuration of an empty environment. *)
Definition cfg_default : Config.config := Config.get_config "/srv/backen" ∅.

(** File names are kept as they are, and files can be written. *)
Definition world_plain : Requests.world :=
  {| Requests.secure_filename := fun name => name;
     Requests.uuid_hex := "0123abcd";
     Requests.write_ok := true |}.

(** Sanitising leaves the bare extension. *)
Definition world_stripping : Requests.world :=
  {| Requests.secure_filename := fun _ => "jpg";
     Requests.uuid_hex := "0123abcd";
     Requests.write_ok := true |}.

(** The configuration when MODEL_PATH is "ckpt.pth". *)
Definition cfg_with_path : Config.config :=
  Config.get_config "/srv/backen" (<["MODEL_PATH" := "ckpt.pth"]> ∅).

(** The network is built and moved to the device without an error. *)
Definition platform_ok : Requests.platform :=
  {| Requests.build_network := fun _ => Returns tt;
     Requests.to_device := Returns tt |}.

(** The pretrained network cannot be fetched. *)
Definition platform_offline : Requests.platform :=
  {| Requests.build_network := fun _ => Raises (OtherError "pretrained weights unavailable");
     Requests.to_device := Returns tt |}.

(** The server before start-up. *)
Definition server_fresh : Requests.server nat :=
  {| Requests.MODEL_AVAILABLE := true; Requests.detector := None |}.

End Inputs.

(** * Vocabulary of the properties *)

(** [hay] has [needle] as a contiguous part. *)
Definition Substring (needle hay : string) : Prop :=
  exists pre post : string, hay = pre ++ needle ++ post.

(** An attempt respects the priority of the "model" key: if the object its
    strategy deserialised from its file is a mapping with a "model" entry,
    the attempt is on that entry. *)
Definition model_first {W : Type} (E : Loader.env W) (a : Loader.attempt W) : Prop :=
  forall d wm,
    Loader.deserialise E (Loader.via a) (Loader.src a) = Some (Loader.CkDict d) ->
    d !! "model" = Some wm ->
    Loader.key a = Some "model" /\ Loader.val a = wm.

(** [m'] comes from [m] by further [load_state_dict] calls that all respect
    the priority. *)
Definition grows {W : Type} (E : Loader.env W) (m m' : Loader.model W) : Prop :=
  exists new,
    Loader.attempts m' = (Loader.attempts m ++ new)%list /\
    Forall (model_first E) new.

(** Between [m] and [m'] a [load_state_dict] call succeeded, and it was
    the last one: its object is the weights of [m']. *)
Definition applied {W : Type} (E : Loader.env W) (m m' : Loader.model W) : Prop :=
  exists pre a,
    Loader.attempts m' = (Loader.attempts m ++ pre ++ [a])%list /\
    Loader.accepts E (Loader.val a) = true /\
    Loader.weights m' = Some (Loader.val a).


(** The response to a result without "prob_morphed", when it is a
    success. *)
Definition defaulted_analysis (with_filename : bool) (name id now : string)
    (result : gmap string Py.pyval) : App.analysis_result :=
  {| App.status := "success";
     App.analysis_id := id;
     App.timestamp := now;
     App.filename := if with_filename then Some name else None;
     App.result_raw_logit := Py.get result "raw_logit" Py.PNone;
     App.result_predicted_class := Py.get result "predicted_class" Py.PNone;
     App.result_class_name := Py.get result "class_name" Py.PNone;
     App.result_confidence := Py.FNum 0;
     App.result_model := Py.get result "model" Py.PNone;
     App.is_morphed := App.eq_one (Py.get result "predicted_class" Py.PNone);
     App.interpretation_risk_level := "LOW" |}.

(** The summary written to the history for such a result. *)
Definition defaulted_summary (name id now : string) (result : gmap string Py.pyval)
    : App.summary :=
  {| App.s_analysis_id := id;
     App.s_timestamp := now;
     App.s_filename := name;
     App.s_class_name := Py.get result "class_name" Py.PNone;
     App.s_confidence := Py.FNum 0;
     App.s_risk_level := "LOW";
     App.s_regions := Py.get result "regions" (Py.PList []);
     App.s_processing_time_ms := Py.get result "processing_time_ms" (Py.PInt 0);
     App.s_thumbnail_url := "/uploads/" ++ name |}.

(** From [m] to [m'] every [load_state_dict] call was rejected. *)
Definition rejected_only {W : Type} (E : Loader.env W) (m m' : Loader.model W) : Prop :=
  exists new,
    Loader.attempts m' = (Loader.attempts m ++ new)%list /\
    Forall (fun a => Loader.accepts E (Loader.val a) = false) new.

(** A call on the "model", "state_dict" or "weights" entry of a mapping
    read by [pickle.load] from the call's file. *)
Definition pickle_entry {W : Type} (E : Loader.env W) (a : Loader.attempt W) : Prop :=
  Loader.via a = Loader.Pickle /\
  (Loader.key a = Some "model" \/ Loader.key a = Some "state_dict" \/
   Loader.key a = Some "weights") /\
  exists d k,
    Loader.pickle_load E (Loader.src a) = Some (Loader.CkDict d) /\
    Loader.key a = Some k /\
    d !! k = Some (Loader.val a).

(** From [m] to [m'] at most [n] calls of [load_state_dict] were made. *)
Definition calls_at_most {W : Type} (n : nat) (m m' : Loader.model W) : Prop :=
  exists new,
    Loader.attempts m' = (Loader.attempts m ++ new)%list /\ (length new <= n)%nat.

(** The directory reached from [dir] through [n] nested ".data"
    directories. *)
Fixpoint nested (n : nat) (dir : string) : string :=
  match n with
  | O => dir
  | S n' => nested n' (Paths.join dir ".data")
  end.

(** The four risk levels in their order; any other text counts as the
    lowest. *)
Definition risk_rank (level : string) : nat :=
  if String.eqb level "CRITICAL" then 3
  else if String.eqb level "HIGH" then 2
  else if String.eqb level "MEDIUM" then 1
  else 0.

(** [s] has no occurrence of the character [c]. *)
Definition free_of (c : ascii) (s : string) : Prop :=
  ~ In c (list_ascii_of_string s).

(** * Properties *)

(** ** Strings *)

Lemma prefix_true_iff (p s : string) :
  String.prefix p s = true <-> exists post, s = p ++ post.
Proof.
  revert s. induction p as [|c p IH]; intros s.
  - split; [intros _; exists s; reflexivity | intros _; destruct s; reflexivity].
  - destruct s as [|c' s]; simpl.
    + split; [discriminate | intros [post H]; discriminate].
    + destruct (Ascii.ascii_dec c c') as [->|Hne].
      * rewrite IH. split; intros [post H]; exists post.
        -- simpl. now rewrite H.
        -- simpl in H. now inversion H.
      * split; [discriminate | intros [post H]; simpl in H; inversion H; congruence].
Qed.

Lemma str_in_true_iff (needle hay : string) :
  Py.str_in needle hay = true <-> Substring needle hay.
Proof.
  unfold Substring. induction hay as [|c hay IH].
  - change (Py.str_in needle "") with (String.prefix needle "" || false).
    rewrite orb_false_r, prefix_true_iff. split.
    + intros [post H]. exists "", post. exact H.
    + intros [pre [post H]]. destruct pre; simpl in H; [eauto | discriminate].
  - change (Py.str_in needle (String c hay))
      with (String.prefix needle (String c hay) || Py.str_in needle hay).
    rewrite orb_true_iff, prefix_true_iff, IH. split.
    + intros [[post H] | [pre [post H]]].
      * exists "", post. exact H.
      * exists (String c pre), post. simpl. now rewrite H.
    + intros [pre [post H]]. destruct pre as [|c' pre]; simpl in H.
      * left. eauto.
      * right. inversion H. eauto.
Qed.

Lemma str_in_false_iff (needle hay : string) :
  Py.str_in needle hay = false <-> ~ Substring needle hay.
Proof.
  rewrite <- str_in_true_iff. destruct (Py.str_in needle hay); split; congruence.
Qed.

Example dirname_nested : Paths.dirname "models/selfmad/ckpt.pth" = "models/selfmad".
Proof. reflexivity. Qed.

Example dirname_bare : Paths.dirname "ckpt.pth" = "".
Proof. reflexivity. Qed.

Example dirname_root : Paths.dirname "/ckpt.pth" = "/".
Proof. reflexivity. Qed.

Example join_data_pkl : Paths.join "models/selfmad" "data.pkl" = "models/selfmad/data.pkl".
Proof. reflexivity. Qed.

Example endswith_tar : Py.endswith "swin_checkpoint.tar" ".tar" = true.
Proof. reflexivity. Qed.

Example upper_model_type : Py.upper "efficientnet-b0" = "EFFICIENTNET-B0".
Proof. reflexivity. Qed.

(** ** The input size of an architecture *)

(** C8: the input size follows the precedence table: a model type with
    "hrnet" in it has 384; otherwise one with "efficientnet" has 224 if it
    has "b0", else 380 if it has "b4", else 224; otherwise one with "swin"
    or "resnet" has 224; every other model type has 380.  In particular
    "efficientnet-b4" has 380 and "hrnet_w64" has 384. *)
Theorem image_size_table (model_type : string) :
  (Substring "hrnet" model_type -> Detector.image_size model_type = 384%Z) /\
  (~ Substring "hrnet" model_type -> Substring "efficientnet" model_type ->
     (Substring "b0" model_type -> Detector.image_size model_type = 224%Z) /\
     (~ Substring "b0" model_type -> Substring "b4" model_type ->
        Detector.image_size model_type = 380%Z) /\
     (~ Substring "b0" model_type -> ~ Substring "b4" model_type ->
        Detector.image_size model_type = 224%Z)) /\
  (~ Substring "hrnet" model_type -> ~ Substring "efficientnet" model_type ->
     (Substring "swin" model_type \/ Substring "resnet" model_type ->
        Detector.image_size model_type = 224%Z) /\
     (~ Substring "swin" model_type -> ~ Substring "resnet" model_type ->
        Detector.image_size model_type = 380%Z)) /\
  Detector.image_size "efficientnet-b4" = 380%Z /\
  Detector.image_size "hrnet_w64" = 384%Z.
Proof.
  unfold Detector.image_size.
  repeat split; intros; try reflexivity;
    repeat match goal with
           | H : Substring _ _ \/ Substring _ _ |- _ => destruct H
           | H : Substring _ _ |- _ => apply str_in_true_iff in H
           | H : ~ Substring _ _ |- _ => apply str_in_false_iff in H
           end;
    repeat match goal with H : Py.str_in _ _ = _ |- _ => rewrite H; clear H end;
    try reflexivity.
  destruct (Py.str_in "swin" model_type); reflexivity.
Qed.

(** ** The risk bands *)

Open Scope R_scope.

(** C1: the risk level of a probability is CRITICAL exactly from 0.90 on,
    HIGH exactly on [0.75, 0.90), MEDIUM exactly on [0.50, 0.75) and LOW
    exactly below 0.50; each of 0.5, 0.75 and 0.9 falls in the band above
    it. *)
Theorem risk_level_bands (p : R) :
  (App.risk_level (Py.FNum p) = "CRITICAL" <-> p >= 0.9) /\
  (App.risk_level (Py.FNum p) = "HIGH" <-> 0.75 <= p < 0.9) /\
  (App.risk_level (Py.FNum p) = "MEDIUM" <-> 0.5 <= p < 0.75) /\
  (App.risk_level (Py.FNum p) = "LOW" <-> p < 0.5) /\
  App.risk_level (Py.FNum 0.5) = "MEDIUM" /\
  App.risk_level (Py.FNum 0.75) = "HIGH" /\
  App.risk_level (Py.FNum 0.9) = "CRITICAL".
Proof.
  unfold App.risk_level, Py.fge.
  repeat match goal with
         | |- context [Rge_dec ?a ?b] => destruct (Rge_dec a b)
         end;
    repeat split; intros;
    repeat match goal with H : _ /\ _ |- _ => destruct H end;
    try discriminate; try reflexivity; lra.
Qed.

(** The comparisons with NaN all fail: its level is the last one. *)
Lemma risk_level_nan : App.risk_level Py.FNaN = "LOW".
Proof. reflexivity. Qed.

Close Scope R_scope.

(** ** The checkpoint loader *)

Section LoaderFacts.

Import Loader.
Local Open Scope list_scope.

Context {W : Type}.
Variable E : env W.

Lemma grows_refl m : grows E m m.
Proof. exists []. split; [now rewrite app_nil_r | constructor]. Qed.

Lemma grows_trans m1 m2 m3 : grows E m1 m2 -> grows E m2 m3 -> grows E m1 m3.
Proof.
  intros [n1 [H1 F1]] [n2 [H2 F2]]. exists (n1 ++ n2). split.
  - rewrite H2, H1. now rewrite <- app_assoc.
  - apply Forall_app. now split.
Qed.

Lemma load_state_dict_attempts a m :
  attempts (snd (load_state_dict E a m)) = attempts m ++ [a].
Proof. unfold load_state_dict. now destruct (accepts E (val a)). Qed.

Lemma load_state_dict_weights a m :
  weights (snd (load_state_dict E a m)) =
  if accepts E (val a) then Some (val a) else weights m.
Proof. unfold load_state_dict. now destruct (accepts E (val a)). Qed.

Lemma load_state_dict_returns a m :
  fst (load_state_dict E a m) =
  if accepts E (val a) then Py.Returns tt
  else Py.Raises (Py.RuntimeError "Error(s) in loading state_dict").
Proof. unfold load_state_dict. now destruct (accepts E (val a)). Qed.

Lemma load_state_dict_grows a m :
  model_first E a -> grows E m (snd (load_state_dict E a m)).
Proof.
  intros Ha. exists [a]. split; [apply load_state_dict_attempts | now constructor].
Qed.

Lemma apply_or_false_snd a m :
  snd (apply_or_false E a m) = snd (load_state_dict E a m).
Proof.
  unfold apply_or_false. destruct (load_state_dict E a m) as [[u|e] m']; reflexivity.
Qed.

Lemma apply_or_false_fst a m : fst (apply_or_false E a m) = accepts E (val a).
Proof.
  unfold apply_or_false, load_state_dict. now destruct (accepts E (val a)).
Qed.

Lemma apply_or_false_grows a m :
  model_first E a -> grows E m (snd (apply_or_false E a m)).
Proof. intros Ha. rewrite apply_or_false_snd. now apply load_state_dict_grows. Qed.

(** The attempt built in a branch of a key probe respects the priority. *)
Ltac probe_model_first :=
  let d' := fresh "d'" in
  let wm := fresh "wm" in
  let Hd := fresh "Hd" in
  let Hm := fresh "Hm" in
  intros d' wm Hd Hm; simpl in Hd, Hm |- *; split; congruence.

Lemma tar_grows p m : grows E m (snd (_load_from_tar_file E p m)).
Proof.
  unfold _load_from_tar_file.
  destruct (torch_load E p) as [[d|w]|] eqn:Hload; try apply grows_refl.
  destruct (d !! "model") as [w|] eqn:Hmodel.
  { apply apply_or_false_grows. probe_model_first. }
  destruct (d !! "state_dict") as [w|] eqn:Hsd; try apply grows_refl.
  apply apply_or_false_grows. probe_model_first.
Qed.

Lemma pickle_grows p m : grows E m (snd (_load_from_pickle_file E p m)).
Proof.
  unfold _load_from_pickle_file.
  destruct (pickle_load E p) as [[d|w]|] eqn:Hload; try apply grows_refl.
  destruct (d !! "model") as [w|] eqn:Hmodel.
  { apply apply_or_false_grows. probe_model_first. }
  destruct (d !! "state_dict") as [w|] eqn:Hsd.
  { apply apply_or_false_grows. probe_model_first. }
  destruct (d !! "weights") as [w|] eqn:Hw; try apply grows_refl.
  apply apply_or_false_grows. probe_model_first.
Qed.

Lemma data_directory_grows depth dir m :
  grows E m (snd (_load_from_data_directory depth E dir m)).
Proof.
  revert dir. induction depth as [|depth IH]; intros dir; simpl.
  - apply grows_refl.
  - destruct (path_exists E _); [apply pickle_grows |].
    destruct (isdir E _); [apply IH | apply grows_refl].
Qed.

Lemma alternative_grows depth p m :
  grows E m (snd (_try_alternative_loading depth E p m)).
Proof.
  unfold _try_alternative_loading.
  destruct (isdir E p); [apply data_directory_grows |].
  destruct (Py.endswith p ".pkl"); [apply pickle_grows |].
  destruct (isdir E _); [apply data_directory_grows | apply grows_refl].
Qed.

Lemma standard_grows p m : grows E m (snd (standard_load E p m)).
Proof.
  unfold standard_load.
  destruct (torch_load E p) as [[d|w]|] eqn:Hload; try apply grows_refl.
  - destruct (d !! "model") as [w|] eqn:Hmodel.
    { apply load_state_dict_grows. probe_model_first. }
    destruct (d !! "state_dict") as [w|] eqn:Hsd; try apply grows_refl.
    apply load_state_dict_grows. probe_model_first.
  - apply load_state_dict_grows. probe_model_first.
Qed.

Lemma load_model_grows depth p m : grows E m (snd (load_model depth E p m)).
Proof.
  unfold load_model. destruct (Py.endswith p ".tar").
  - pose proof (tar_grows p m) as H.
    destruct (_load_from_tar_file E p m) as [b m']. exact H.
  - pose proof (standard_grows p m) as Hs.
    destruct (standard_load E p m) as [[u|e] m']; [exact Hs |].
    pose proof (alternative_grows depth p m') as Ha.
    destruct (_try_alternative_loading depth E p m') as [ok m''].
    simpl in *. destruct ok; simpl; eapply grows_trans; eauto.
Qed.

(** C2: for a checkpoint that deserialises to a mapping with both a
    "model" and a "state_dict" entry, each of the three strategies (the
    .tar load, the standard load, the pickle load) calls [load_state_dict]
    once, on the "model" entry; and no call made by [load_model] on an
    object of that mapping is on another entry. *)
Theorem model_key_has_priority (p : string) (d : gmap string W) (wm ws : W) :
  d !! "model" = Some wm ->
  d !! "state_dict" = Some ws ->
  (torch_load E p = Some (CkDict d) ->
   forall m,
     _load_from_tar_file E p m =
       (accepts E wm,
        {| weights := if accepts E wm then Some wm else weights m;
           attempts := attempts m ++
             [{| via := Tar; src := p; key := Some "model"; val := wm |}] |}) /\
     snd (standard_load E p m) =
       {| weights := if accepts E wm then Some wm else weights m;
          attempts := attempts m ++
            [{| via := Standard; src := p; key := Some "model"; val := wm |}] |}) /\
  (pickle_load E p = Some (CkDict d) ->
   forall m,
     _load_from_pickle_file E p m =
       (accepts E wm,
        {| weights := if accepts E wm then Some wm else weights m;
           attempts := attempts m ++
             [{| via := Pickle; src := p; key := Some "model"; val := wm |}] |})) /\
  (torch_load E p = Some (CkDict d) ->
   Py.endswith p ".tar" = false ->
   accepts E wm = true ->
   forall depth m,
     load_model depth E p m =
       (Py.Returns RNone,
        {| weights := Some wm;
           attempts := attempts m ++
             [{| via := Standard; src := p; key := Some "model"; val := wm |}] |})) /\
  (forall depth q m,
   exists new,
     attempts (snd (load_model depth E q m)) = attempts m ++ new /\
     forall a, In a new ->
       deserialise E (via a) (src a) = Some (CkDict d) ->
       key a = Some "model" /\ val a = wm).
Proof.
  intros Hmodel Hsd. repeat split.
  - unfold _load_from_tar_file, apply_or_false, load_state_dict.
    rewrite H, Hmodel. simpl. now destruct (accepts E wm).
  - unfold standard_load, load_state_dict.
    rewrite H, Hmodel. simpl. now destruct (accepts E wm).
  - intros Hload m. unfold _load_from_pickle_file, apply_or_false, load_state_dict.
    rewrite Hload, Hmodel. simpl. now destruct (accepts E wm).
  - intros Hload Htar Hacc depth m.
    unfold load_model, standard_load, load_state_dict.
    rewrite Htar, Hload, Hmodel. simpl. now rewrite Hacc.
  - intros depth q m.
    destruct (load_model_grows depth q m) as [new [Hnew Hall]].
    exists new. split; [exact Hnew |].
    intros a Ha Hdes. rewrite List.Forall_forall in Hall.
    exact (Hall a Ha d wm Hdes Hmodel).
Qed.

End LoaderFacts.

(** The three strategies on a mapping that has both keys. *)
Lemma model_key_has_priority_witness :
  Inputs.both_keys !! "model" = Some 1%nat /\
  Inputs.both_keys !! "state_dict" = Some 2%nat /\
  Loader._load_from_tar_file Inputs.env_both_keys "swin_checkpoint.tar" Loader.fresh_model =
    (true,
     {| Loader.weights := Some 1%nat;
        Loader.attempts :=
          [{| Loader.via := Loader.Tar; Loader.src := "swin_checkpoint.tar";
              Loader.key := Some "model"; Loader.val := 1%nat |}] |}).
Proof.
  split; [reflexivity | split; [reflexivity |]].
  destruct (model_key_has_priority Inputs.env_both_keys "swin_checkpoint.tar"
              Inputs.both_keys 1%nat 2%nat eq_refl eq_refl) as [Htar _].
  destruct (Htar eq_refl Loader.fresh_model) as [H _].
  exact H.
Defined.

(** ** The outcome of [load_model] *)

Section LoaderOutcome.

Import Loader.
Local Open Scope list_scope.

Context {W : Type}.
Variable E : env W.

Lemma apply_or_false_applied a m m' :
  apply_or_false E a m = (true, m') -> applied E m m'.
Proof.
  unfold apply_or_false, load_state_dict.
  destruct (accepts E (val a)) eqn:Hacc; intros H; inversion H; subst.
  exists [], a. repeat split; assumption.
Qed.

Lemma pickle_applied p m m' :
  _load_from_pickle_file E p m = (true, m') -> applied E m m'.
Proof.
  unfold _load_from_pickle_file.
  destruct (pickle_load E p) as [[d|w]|]; try discriminate.
  destruct (d !! "model"); [apply apply_or_false_applied |].
  destruct (d !! "state_dict"); [apply apply_or_false_applied |].
  destruct (d !! "weights"); [apply apply_or_false_applied | discriminate].
Qed.

Lemma data_directory_applied depth dir m m' :
  _load_from_data_directory depth E dir m = (true, m') -> applied E m m'.
Proof.
  revert dir. induction depth as [|depth IH]; intros dir; simpl; [discriminate |].
  destruct (path_exists E _); [apply pickle_applied |].
  destruct (isdir E _); [apply IH | discriminate].
Qed.

Lemma alternative_applied depth p m m' :
  _try_alternative_loading depth E p m = (true, m') -> applied E m m'.
Proof.
  unfold _try_alternative_loading.
  destruct (isdir E p); [apply data_directory_applied |].
  destruct (Py.endswith p ".pkl"); [apply pickle_applied |].
  destruct (isdir E _); [apply data_directory_applied | discriminate].
Qed.

Lemma applied_after m1 m2 m3 :
  (exists n, attempts m2 = attempts m1 ++ n) -> applied E m2 m3 -> applied E m1 m3.
Proof.
  intros [n Hn] [pre [a [Hat [Hacc Hw]]]].
  exists (n ++ pre), a. repeat split; try assumption.
  rewrite Hat, Hn. now rewrite <- !app_assoc.
Qed.

Lemma standard_load_returns p m m' u :
  standard_load E p m = (Py.Returns u, m') -> applied E m m'.
Proof.
  assert (Hl : forall a, load_state_dict E a m = (Py.Returns u, m') -> applied E m m').
  { intros a. unfold load_state_dict.
    destruct (accepts E (val a)) eqn:Hacc; intros H; inversion H; subst.
    exists [], a. repeat split; assumption. }
  unfold standard_load.
  destruct (torch_load E p) as [[d|w]|]; try discriminate; [| apply Hl].
  destruct (d !! "model"); [apply Hl |].
  destruct (d !! "state_dict"); [apply Hl | discriminate].
Qed.

(** Off the .tar branch, [load_model] returns only with weights applied,
    and raises otherwise. *)
Lemma load_model_returns_applied depth p m r m' :
  Py.endswith p ".tar" = false ->
  load_model depth E p m = (Py.Returns r, m') ->
  r = RNone /\ applied E m m'.
Proof.
  intros Htar. unfold load_model. rewrite Htar.
  destruct (standard_load E p m) as [[u|e] m1] eqn:Hstd.
  - intros H. inversion H; subst. split; [reflexivity |].
    eapply standard_load_returns; eauto.
  - destruct (_try_alternative_loading depth E p m1) as [ok m2] eqn:Halt.
    destruct ok; intros H; inversion H; subst. split; [reflexivity |].
    eapply applied_after; [| eapply alternative_applied; eauto].
    destruct (standard_grows E p m) as [n [Hn _]].
    rewrite Hstd in Hn. simpl in Hn. eauto.
Qed.

(** On the .tar branch, [load_model] never raises: it returns the boolean
    of [_load_from_tar_file]. *)
Lemma load_model_tar_returns depth p m :
  Py.endswith p ".tar" = true ->
  load_model depth E p m =
    (Py.Returns (RBool (fst (_load_from_tar_file E p m))),
     snd (_load_from_tar_file E p m)).
Proof.
  intros Htar. unfold load_model. rewrite Htar.
  now destruct (_load_from_tar_file E p m).
Qed.

(** A .tar file that [torch.load] cannot read leaves the model as it was. *)
Lemma tar_unreadable p m :
  torch_load E p = None -> _load_from_tar_file E p m = (false, m).
Proof. intros H. unfold _load_from_tar_file. now rewrite H. Qed.

End LoaderOutcome.

(** C3, at the path "swin_checkpoint.tar" of a file that [torch.load]
    cannot read: [load_model] returns [False] without raising and without
    a [load_state_dict] call, and the constructor returns a detector with
    the weights of the fresh architecture; at "swin_checkpoint.pth", with
    every strategy failing as well, [load_model] raises. *)
Theorem load_model_tar_failure_is_silent :
  Loader.load_model 1000 Inputs.env_unreadable "swin_checkpoint.tar" Loader.fresh_model =
    (Py.Returns (Loader.RBool false), Loader.fresh_model) /\
  Detector.init 1000 Inputs.env_unreadable (Some "swin_checkpoint.tar") "swin" =
    Py.Returns {| Detector.self_model_type := "swin";
                  Detector.self_model := Loader.fresh_model;
                  Detector.self_image_size := 224%Z |} /\
  Loader.load_model 1000 Inputs.env_unreadable "swin_checkpoint.pth" Loader.fresh_model =
    (Py.Raises (Py.RuntimeError
       "❌ Failed to load HRNet model from checkpoint. All loading methods failed."),
     Loader.fresh_model).
Proof. repeat split; vm_compute; reflexivity. Qed.

(** ** The history *)

Section HistoryFacts.

Import History.
Local Open Scope list_scope.

Context {entry : Type}.
Implicit Types (a : artifact entry) (h rs : list entry) (s : entry).

Lemma firstn_app_firstn n m (l l' : list entry) :
  (n <= m)%nat -> firstn n (l ++ firstn m l') = firstn n (l ++ l').
Proof.
  revert n. induction l as [|x l IH]; intros n Hle; simpl.
  - rewrite List.firstn_firstn. now rewrite Nat.min_l.
  - destruct n as [|n]; [reflexivity |]. simpl. f_equal. apply IH. lia.
Qed.

Lemma persist_summary_array s h :
  persist_summary s (Stored (JArray h)) = Stored (JArray (firstn 100 (s :: h))).
Proof. reflexivity. Qed.

Lemma persist_summary_log_like s a :
  log_like a = true ->
  persist_summary s a = Stored (JArray (firstn 100 (s :: entries a))).
Proof. destruct a as [| |[h|]]; intros H; try reflexivity. discriminate. Qed.

Lemma persist_all_array rs h :
  rs <> [] ->
  persist_all rs (Stored (JArray h)) = Stored (JArray (firstn 100 (rev rs ++ h))).
Proof.
  revert h. induction rs as [|r rs IH]; intros h Hne; [congruence |].
  unfold persist_all. simpl fold_left. rewrite persist_summary_array.
  destruct rs as [|r' rs].
  - reflexivity.
  - fold (persist_all (r' :: rs) (Stored (JArray (firstn 100 (r :: h))))).
    rewrite IH by discriminate.
    rewrite firstn_app_firstn by lia.
    change (rev (r :: r' :: rs)) with (rev (r' :: rs) ++ [r]).
    now rewrite <- app_assoc.
Qed.

Lemma persist_all_log_like rs a :
  log_like a = true -> rs <> [] ->
  persist_all rs a = Stored (JArray (firstn 100 (rev rs ++ entries a))).
Proof.
  intros Hlog Hne. destruct rs as [|r rs]; [congruence |].
  unfold persist_all. simpl fold_left. rewrite (persist_summary_log_like r a Hlog).
  destruct rs as [|r' rs]; [reflexivity |].
  fold (persist_all (r' :: rs) (Stored (JArray (firstn 100 (r :: entries a))))).
  rewrite persist_all_array by discriminate.
  rewrite firstn_app_firstn by lia.
  change (rev (r :: r' :: rs)) with (rev (r' :: rs) ++ [r]).
  now rewrite <- app_assoc.
Qed.

(** A document that is no list stays as it is: the summary is lost. *)
Lemma persist_summary_other s :
  persist_summary s (Stored (@JOther entry)) = Stored JOther.
Proof. reflexivity. Qed.

(** C5: on a history file that is missing, corrupt or holds an array, a
    recorded summary goes to the front and the first 100 entries are
    written back, so that after any run of records the file holds at most
    100 entries; after 150 records [get_history] answers with exactly the
    last 100 of them, the most recent first. *)
Theorem history_capped_at_100 a rs :
  log_like a = true ->
  (forall s, persist_summary s a = Stored (JArray (firstn 100 (s :: entries a)))) /\
  (rs <> [] ->
     persist_all rs a = Stored (JArray (firstn 100 (rev rs ++ entries a))) /\
     (length (entries (persist_all rs a)) <= 100)%nat) /\
  (length rs = 150%nat ->
     get_history (persist_all rs a) =
       (200%Z, HistorySuccess (JArray (rev (skipn 50 rs)))) /\
     length (rev (skipn 50 rs)) = 100%nat).
Proof.
  intros Hlog. split; [| split].
  - intros s. now apply persist_summary_log_like.
  - intros Hne. rewrite (persist_all_log_like rs a Hlog Hne). split; [reflexivity |].
    unfold entries, read_log. apply List.firstn_le_length.
  - intros Hlen.
    assert (Hne : rs <> []) by (intros ->; discriminate).
    rewrite (persist_all_log_like rs a Hlog Hne).
    rewrite List.firstn_app, List.length_rev, Hlen.
    change (100 - 150)%nat with 0%nat. rewrite List.firstn_0, app_nil_r.
    rewrite List.firstn_rev, Hlen. change (150 - 100)%nat with 50%nat.
    split; [reflexivity |].
    rewrite List.length_rev, List.length_skipn, Hlen. reflexivity.
Qed.

End HistoryFacts.

(** 150 numbered records on a missing file. *)
Lemma history_capped_at_100_witness :
  History.log_like (@History.Missing nat) = true /\
  length (seq 1 150) = 150%nat /\
  History.get_history (History.persist_all (seq 1 150) History.Missing) =
    (200%Z, History.HistorySuccess (History.JArray (rev (skipn 50 (seq 1 150))))).
Proof.
  split; [reflexivity | split; [reflexivity |]].
  destruct (history_capped_at_100 (@History.Missing nat) (seq 1 150) eq_refl)
    as [_ [_ H]].
  exact (proj1 (H eq_refl)).
Defined.

(** C4, as the code has it: on a corrupt history file [get_history] does
    not raise and does not answer with an empty history; it answers with
    status 500 and the message "Failed to read history".  Only the read
    before a record takes a corrupt file for an empty log. *)
Theorem corrupt_history_is_reported (entry : Type) :
  @History.get_history entry History.Corrupt =
    (500%Z, History.HistoryError "Failed to read history") /\
  @History.read_log entry History.Corrupt = History.JArray [] /\
  (forall s : entry,
     History.persist_summary s History.Corrupt = History.Stored (History.JArray [s])) /\
  @History.get_history entry History.Missing =
    (200%Z, History.HistorySuccess (History.JArray [])).
Proof. repeat split. Qed.

(** C4 fails on a corrupt file: the answer is an error, not the empty
    history. *)
Lemma corrupt_history_not_empty :
  @History.get_history nat History.Corrupt <>
    (200%Z, History.HistorySuccess (History.JArray [])) /\
  fst (@History.get_history nat History.Corrupt) = 500%Z.
Proof. split; [discriminate | reflexivity]. Qed.

(** ** The detector *)

Section DetectorFacts.

Import Py Detector.

Context {T W : Type}.
Variable rt : runtime T.
Variable self : detector W.
Variable image_path : string.

Lemma detect_morphing_preprocess_raises e :
  preprocess_image rt (self_image_size self) image_path = Raises e ->
  detect_morphing rt self image_path = Returns (error_dict image_path e).
Proof. intros H. unfold detect_morphing. now rewrite H. Qed.

Lemma detect_morphing_forward_raises t e :
  preprocess_image rt (self_image_size self) image_path = Returns t ->
  forward rt t = Raises e ->
  detect_morphing rt self image_path = Returns (error_dict image_path e).
Proof. intros Hp Hf. unfold detect_morphing. rewrite Hp. simpl. now rewrite Hf. Qed.

Lemma detect_morphing_scores t lg raw pc :
  preprocess_image rt (self_image_size self) image_path = Returns t ->
  forward rt t = Returns lg ->
  raw_logit_of lg = Returns raw ->
  np_argmax lg = Returns pc ->
  detect_morphing rt self image_path =
    Returns (result_dict image_path (self_model_type self) raw pc (prob_morphed_of rt lg raw)).
Proof.
  intros Hp Hf Hr Ha. unfold detect_morphing.
  rewrite Hp. simpl. rewrite Hf. simpl. rewrite Hr. simpl. now rewrite Ha.
Qed.

(** The handler catches every exception of the body. *)
Lemma detect_morphing_returns :
  exists d, detect_morphing rt self image_path = Returns d.
Proof.
  unfold detect_morphing.
  destruct (bind _ _) as [d|e]; simpl; eauto.
Qed.

Lemma error_dict_fields e :
  error_dict image_path e !! "error" = Some (PStr (exn_str e)) /\
  error_dict image_path e !! "prob_morphed" = None /\
  error_dict image_path e !! "raw_logit" = Some PNone /\
  error_dict image_path e !! "predicted_class" = Some PNone /\
  error_dict image_path e !! "class_name" = Some PNone.
Proof. unfold error_dict. repeat split; by simplify_map_eq. Qed.

Lemma result_dict_fields mt raw pc prob :
  result_dict image_path mt raw pc prob !! "error" = None /\
  result_dict image_path mt raw pc prob !! "raw_logit" = Some (PFloat raw) /\
  result_dict image_path mt raw pc prob !! "predicted_class" = Some (PInt pc) /\
  result_dict image_path mt raw pc prob !! "prob_morphed" = Some (PFloat prob) /\
  result_dict image_path mt raw pc prob !! "class_name" =
    Some (PStr (if (pc =? 1)%Z then "MORPHED" else "GENUINE")).
Proof. unfold result_dict. repeat split; by simplify_map_eq. Qed.

End DetectorFacts.

(** C6, as the code has it: [detect_morphing] never raises.  When the
    preprocessing or the forward pass raises (a shape mismatch, say), it
    returns the handler's dictionary: the text of the exception under
    "error", [None] under "raw_logit", "predicted_class" and "class_name"
    and no "prob_morphed"; the analyze endpoints answer such a result with
    status 500, "Detection failed".  NaN scores raise nothing: a NaN second
    score gives an ordinary result whose probability is NaN. *)
Theorem detection_errors_are_returned {T W : Type} (rt : Detector.runtime T)
    (self : Detector.detector W) (image_path : string) :
  (exists d, Detector.detect_morphing rt self image_path = Py.Returns d) /\
  (forall e,
     Detector.preprocess_image rt (Detector.self_image_size self) image_path = Py.Raises e ->
     Detector.detect_morphing rt self image_path =
       Py.Returns (Detector.error_dict image_path e)) /\
  (forall t e,
     Detector.preprocess_image rt (Detector.self_image_size self) image_path = Py.Returns t ->
     Detector.forward rt t = Py.Raises e ->
     Detector.detect_morphing rt self image_path =
       Py.Returns (Detector.error_dict image_path e)) /\
  (forall e,
     Detector.error_dict image_path e !! "error" = Some (Py.PStr (Py.exn_str e)) /\
     Detector.error_dict image_path e !! "prob_morphed" = None /\
     Detector.error_dict image_path e !! "raw_logit" = Some Py.PNone /\
     Detector.error_dict image_path e !! "predicted_class" = Some Py.PNone /\
     Detector.error_dict image_path e !! "class_name" = Some Py.PNone) /\
  (forall e parse with_filename stored_name id now hist,
     App.respond parse with_filename stored_name id now
       (Detector.error_dict image_path e) hist =
     ((500%Z, App.Error (App.DetectionFailed (Py.PStr (Py.exn_str e)))), hist)) /\
  (forall t a,
     Detector.preprocess_image rt (Detector.self_image_size self) image_path = Py.Returns t ->
     Detector.forward rt t = Py.Returns (Detector.LVec [Py.FNum a; Py.FNaN]) ->
     Detector.detect_morphing rt self image_path =
       Py.Returns (Detector.result_dict image_path (Detector.self_model_type self)
                     Py.FNaN 1 Py.FNaN)).
Proof.
  split; [apply detect_morphing_returns |].
  split; [apply detect_morphing_preprocess_raises |].
  split; [apply detect_morphing_forward_raises |].
  split; [apply error_dict_fields |].
  split.
  - intros e parse b name id now hist. unfold App.respond.
    destruct (error_dict_fields image_path e) as [-> _]. reflexivity.
  - intros t a Hp Hf.
    rewrite (detect_morphing_scores rt self image_path t _ Py.FNaN 1%Z Hp Hf);
      [| reflexivity | reflexivity].
    do 2 f_equal. unfold Detector.prob_morphed_of, Detector.softmax_prob.
    destruct (Detector.softmax_raises rt _); reflexivity.
Qed.

(** C6 fails where the forward pass rejects the shape of the image: the
    call returns a dictionary, it does not raise. *)
Lemma shape_mismatch_is_returned :
  Detector.detect_morphing Inputs.rt_shape_mismatch Inputs.detector_b0 "face.png" =
    Py.Returns
      (Detector.error_dict "face.png"
         (Py.RuntimeError
            "Given groups=1, expected input to have 3 channels, but got 4 channels instead")).
Proof. reflexivity. Qed.

(** ** The probability of the morphed class *)

Lemma softmax_pair (a b : R) :
  Detector.softmax [Py.FNum a; Py.FNum b] =
    [Py.FNum (exp a / (exp a + exp b)); Py.FNum (exp b / (exp a + exp b))].
Proof.
  unfold Detector.softmax, Detector.reals_of, Detector.exp_sum. simpl.
  rewrite Rplus_0_r. reflexivity.
Qed.

Lemma prob_morphed_of_pair {T : Type} (rt : Detector.runtime T) (x y raw : Py.pyfloat) :
  Detector.prob_morphed_of rt (Detector.LVec [x; y]) raw =
    if Detector.softmax_raises rt [x; y] then Detector.sigmoid raw
    else nth 1 (Detector.softmax [x; y]) Py.FNaN.
Proof.
  unfold Detector.prob_morphed_of, Detector.softmax_prob.
  destruct (Detector.softmax_raises rt [x; y]); [reflexivity |].
  assert (Hlen : length (Detector.softmax [x; y]) = 2%nat).
  { unfold Detector.softmax. destruct (Detector.reals_of [x; y]) as [rs|] eqn:Hrs.
    - destruct x, y; simpl in Hrs; try discriminate. now inversion Hrs.
    - reflexivity. }
  rewrite Hlen. reflexivity.
Qed.

(** C7: on a pair of scores the raw logit is the second score, and the
    probability of the morphed class is the second component of the
    softmax of the pair, [exp b / (exp a + exp b)] on real scores; when the
    softmax raises, it is the sigmoid of the second score alone,
    [1 / (1 + exp (- b))]. *)
Theorem prob_morphed_softmax_or_sigmoid {T W : Type} (rt : Detector.runtime T)
    (self : Detector.detector W) (image_path : string) (a b : R) :
  Detector.raw_logit_of (Detector.LVec [Py.FNum a; Py.FNum b]) = Py.Returns (Py.FNum b) /\
  Detector.prob_morphed_of rt (Detector.LVec [Py.FNum a; Py.FNum b]) (Py.FNum b) =
    (if Detector.softmax_raises rt [Py.FNum a; Py.FNum b]
     then Py.FNum (1 / (1 + exp (- b)))
     else Py.FNum (exp b / (exp a + exp b))) /\
  nth 1 (Detector.softmax [Py.FNum a; Py.FNum b]) Py.FNaN =
    Py.FNum (exp b / (exp a + exp b)) /\
  (forall t,
     Detector.preprocess_image rt (Detector.self_image_size self) image_path = Py.Returns t ->
     Detector.forward rt t = Py.Returns (Detector.LVec [Py.FNum a; Py.FNum b]) ->
     exists d,
       Detector.detect_morphing rt self image_path = Py.Returns d /\
       d !! "raw_logit" = Some (Py.PFloat (Py.FNum b)) /\
       d !! "prob_morphed" =
         Some (Py.PFloat
                 (if Detector.softmax_raises rt [Py.FNum a; Py.FNum b]
                  then Py.FNum (1 / (1 + exp (- b)))
                  else Py.FNum (exp b / (exp a + exp b))))).
Proof.
  assert (Hprob :
    Detector.prob_morphed_of rt (Detector.LVec [Py.FNum a; Py.FNum b]) (Py.FNum b) =
    (if Detector.softmax_raises rt [Py.FNum a; Py.FNum b]
     then Py.FNum (1 / (1 + exp (- b)))
     else Py.FNum (exp b / (exp a + exp b)))).
  { rewrite prob_morphed_of_pair, softmax_pair. reflexivity. }
  split; [reflexivity |]. split; [exact Hprob |].
  split; [now rewrite softmax_pair |].
  intros t Hp Hf.
  pose proof (detect_morphing_scores rt self image_path t _ (Py.FNum b) _
                Hp Hf eq_refl eq_refl) as Hd.
  eexists. split; [exact Hd |].
  - rewrite Hprob.
    match goal with
    | |- context [Detector.result_dict ?p ?mt ?raw ?pc ?prob] =>
        destruct (result_dict_fields p mt raw pc prob) as (_ & Hraw & _ & Hpm & _)
    end.
    split; assumption.
Qed.

(** ** The predicted class *)

Lemma argmax_pair_tie (x : Py.pyfloat) :
  Detector.np_argmax (Detector.LVec [x; x]) = Py.Returns 0%Z.
Proof.
  unfold Detector.np_argmax. simpl. destruct x as [|r]; simpl; [reflexivity |].
  destruct (Rle_dec r r) as [_|Hn]; [reflexivity |]. exfalso. apply Hn. lra.
Qed.

(** C9: on two equal scores the predicted class is 0 and the class name
    is "GENUINE"; so it is on the scores 0.1 and 0.1. *)
Theorem argmax_tie_is_genuine {T W : Type} (rt : Detector.runtime T)
    (self : Detector.detector W) (image_path : string) (x : Py.pyfloat) :
  Detector.np_argmax (Detector.LVec [x; x]) = Py.Returns 0%Z /\
  Detector.np_argmax (Detector.LVec [Py.FNum 0.1; Py.FNum 0.1]) = Py.Returns 0%Z /\
  (forall t,
     Detector.preprocess_image rt (Detector.self_image_size self) image_path = Py.Returns t ->
     Detector.forward rt t = Py.Returns (Detector.LVec [x; x]) ->
     exists d,
       Detector.detect_morphing rt self image_path = Py.Returns d /\
       d !! "predicted_class" = Some (Py.PInt 0) /\
       d !! "class_name" = Some (Py.PStr "GENUINE")).
Proof.
  split; [apply argmax_pair_tie |]. split; [apply argmax_pair_tie |].
  intros t Hp Hf.
  pose proof (detect_morphing_scores rt self image_path t _ x 0%Z
                Hp Hf eq_refl (argmax_pair_tie x)) as Hd.
  eexists. split; [exact Hd |].
  - match goal with
    | |- context [Detector.result_dict ?p ?mt ?raw ?pc ?prob] =>
        destruct (result_dict_fields p mt raw pc prob) as (_ & _ & Hpc & _ & Hcn)
    end.
    split; assumption.
Qed.

(** ** The analyze endpoints *)

Section EndpointFacts.

Import Py App.
Local Open Scope R_scope.

Lemma round_half_even_zero : round_half_even (0 * 100 * 10) = 0%Z.
Proof.
  assert (H0 : 0 * 100 * 10 = 0) by lra. rewrite H0.
  assert (Hip : Int_part 0 = 0%Z).
  { apply eq_IZR. pose proof fp_R0 as H. unfold frac_part in H. lra. }
  unfold round_half_even. rewrite Hip.
  destruct (Rlt_dec (0 - 0) (1 / 2)) as [_|Hn]; [reflexivity |].
  exfalso. apply Hn. lra.
Qed.

Lemma confidence_of_zero : round1 (fmul (FNum 0) (FNum 100)) = FNum 0.
Proof.
  unfold round1, fmul. rewrite round_half_even_zero. f_equal. lra.
Qed.

Lemma risk_level_zero : risk_level (FNum 0) = "LOW".
Proof.
  unfold risk_level, fge.
  repeat match goal with
         | |- context [Rge_dec ?a ?b] => destruct (Rge_dec a b); try lra
         end.
  reflexivity.
Qed.

Variable float_of_str : string -> option pyfloat.

(** Both endpoints hand the detector's result to [respond]. *)
Lemma analyze_image_respond detect path name id now result hist :
  detect path = Returns result ->
  analyze_image float_of_str (Some detect) path name id now hist =
    respond float_of_str true name id now result hist /\
  analyze_image_base64 float_of_str (Some detect) path name id now hist =
    respond float_of_str false name id now result hist.
Proof. intros H. unfold analyze_image, analyze_image_base64. now rewrite H. Qed.

(** The risk level of a successful response is that of the probability
    read from the result. *)
Lemma respond_risk_level with_filename name id now result hist code r :
  fst (respond float_of_str with_filename name id now result hist) = (code, Success r) ->
  exists prob,
    py_float float_of_str (get result "prob_morphed" (PFloat (FNum 0))) = Returns prob /\
    interpretation_risk_level r = risk_level prob /\
    result_confidence r = round1 (fmul prob (FNum 100)).
Proof.
  unfold respond. destruct (result !! "error"); [discriminate |].
  destruct (py_float _ _) as [prob|e]; [| discriminate].
  destruct (log_completed result); simpl; intros H; inversion H; subst.
  exists prob. repeat split.
Qed.

Lemma respond_without_probability with_filename name id now result hist :
  result !! "error" = None ->
  result !! "prob_morphed" = None ->
  respond float_of_str with_filename name id now result hist =
    (match log_completed result with
     | Returns _ => (200%Z, Success (defaulted_analysis with_filename name id now result))
     | Raises e => (500%Z, Error (AnalysisFailed e))
     end,
     History.persist_summary (defaulted_summary name id now result) hist).
Proof.
  intros Herr Hprob. unfold respond, defaulted_analysis, defaulted_summary.
  rewrite Herr. unfold get at 1. rewrite Hprob. simpl py_float. cbv iota.
  rewrite confidence_of_zero, risk_level_zero. simpl.
  destruct (log_completed result); reflexivity.
Qed.


End EndpointFacts.




(** A dictionary without "class_name" is none that [detect_morphing]
    returns.  On it the log line raises after the summary has been handed
    to the history, and the answer is an error. *)
Lemma missing_class_name_is_an_error :
  App.analyze_image (fun _ => None)
    (Some (fun _ => Py.Returns Inputs.result_image_only))
    "uploads/face.png" "face.png" "id-1" "2024-01-01T00:00:00" History.Missing =
  ((500%Z, App.Error (App.AnalysisFailed (Py.KeyError "class_name"))),
   History.Stored
     (History.JArray
        [defaulted_summary "face.png" "id-1" "2024-01-01T00:00:00"
           Inputs.result_image_only])).
Proof.
  unfold App.analyze_image.
  rewrite respond_without_probability by reflexivity.
  reflexivity.
Qed.

(** ** The theorems at concrete inputs *)

(** "efficientnet-b4" has no "hrnet" and no "b0" in it, and has "b4". *)
Lemma image_size_table_witness :
  ~ Substring "hrnet" "efficientnet-b4" /\
  Substring "efficientnet" "efficientnet-b4" /\
  ~ Substring "b0" "efficientnet-b4" /\
  Substring "b4" "efficientnet-b4" /\
  Detector.image_size "efficientnet-b4" = 380%Z.
Proof.
  assert (H1 : ~ Substring "hrnet" "efficientnet-b4")
    by (apply str_in_false_iff; reflexivity).
  assert (H2 : Substring "efficientnet" "efficientnet-b4")
    by (apply str_in_true_iff; reflexivity).
  assert (H3 : ~ Substring "b0" "efficientnet-b4")
    by (apply str_in_false_iff; reflexivity).
  assert (H4 : Substring "b4" "efficientnet-b4")
    by (apply str_in_true_iff; reflexivity).
  repeat (split; [assumption |]).
  destruct (image_size_table "efficientnet-b4") as (_ & Heff & _).
  destruct (Heff H1 H2) as (_ & Hb4 & _).
  exact (Hb4 H3 H4).
Defined.

(** A forward pass that rejects the shape of the image. *)
Lemma detection_errors_are_returned_witness :
  Detector.preprocess_image Inputs.rt_shape_mismatch 224%Z "face.png" = Py.Returns tt /\
  Detector.forward Inputs.rt_shape_mismatch tt =
    Py.Raises (Py.RuntimeError
      "Given groups=1, expected input to have 3 channels, but got 4 channels instead") /\
  Detector.detect_morphing Inputs.rt_shape_mismatch Inputs.detector_b0 "face.png" =
    Py.Returns (Detector.error_dict "face.png" (Py.RuntimeError
      "Given groups=1, expected input to have 3 channels, but got 4 channels instead")).
Proof.
  split; [reflexivity | split; [reflexivity |]].
  destruct (detection_errors_are_returned Inputs.rt_shape_mismatch Inputs.detector_b0
              "face.png") as (_ & _ & Hfwd & _).
  exact (Hfwd tt _ eq_refl eq_refl).
Defined.

(** The scores -2 and 3, with a softmax that returns. *)
Lemma prob_morphed_softmax_or_sigmoid_witness :
  Detector.forward
    (Inputs.rt_scores (Detector.LVec [Py.FNum (-2); Py.FNum 3]) false) tt =
    Py.Returns (Detector.LVec [Py.FNum (-2); Py.FNum 3]) /\
  exists d,
    Detector.detect_morphing
      (Inputs.rt_scores (Detector.LVec [Py.FNum (-2); Py.FNum 3]) false)
      Inputs.detector_b0 "face.png" = Py.Returns d /\
    d !! "raw_logit" = Some (Py.PFloat (Py.FNum 3)) /\
    d !! "prob_morphed" =
      Some (Py.PFloat (Py.FNum (exp 3 / (exp (-2) + exp 3)))).
Proof.
  split; [reflexivity |].
  destruct (prob_morphed_softmax_or_sigmoid
              (Inputs.rt_scores (Detector.LVec [Py.FNum (-2); Py.FNum 3]) false)
              Inputs.detector_b0 "face.png" (-2) 3) as (_ & _ & _ & H).
  exact (H tt eq_refl eq_refl).
Defined.

(** The scores 0.1 and 0.1. *)
Lemma argmax_tie_is_genuine_witness :
  Detector.forward
    (Inputs.rt_scores (Detector.LVec [Py.FNum 0.1; Py.FNum 0.1]) false) tt =
    Py.Returns (Detector.LVec [Py.FNum 0.1; Py.FNum 0.1]) /\
  exists d,
    Detector.detect_morphing
      (Inputs.rt_scores (Detector.LVec [Py.FNum 0.1; Py.FNum 0.1]) false)
      Inputs.detector_b0 "face.png" = Py.Returns d /\
    d !! "predicted_class" = Some (Py.PInt 0) /\
    d !! "class_name" = Some (Py.PStr "GENUINE").
Proof.
  split; [reflexivity |].
  destruct (argmax_tie_is_genuine
              (Inputs.rt_scores (Detector.LVec [Py.FNum 0.1; Py.FNum 0.1]) false)
              Inputs.detector_b0 "face.png" (Py.FNum 0.1)) as (_ & _ & H).
  exact (H tt eq_refl eq_refl).
Defined.

(** * Further properties *)

(** ** The loader *)

Section LoaderMore.

Import Loader.
Local Open Scope list_scope.

Context {W : Type}.
Variable E : env W.

Lemma rejected_only_refl m : rejected_only E m m.
Proof. exists []. split; [now rewrite app_nil_r | constructor]. Qed.

Lemma rejected_only_trans m1 m2 m3 :
  rejected_only E m1 m2 -> rejected_only E m2 m3 -> rejected_only E m1 m3.
Proof.
  intros [n1 [H1 F1]] [n2 [H2 F2]].
  exists (n1 ++ n2). split.
  - rewrite H2, H1. now rewrite <- app_assoc.
  - apply Forall_app. now split.
Qed.

Lemma apply_or_false_rejected a m m' :
  apply_or_false E a m = (false, m') -> rejected_only E m m'.
Proof.
  unfold apply_or_false, load_state_dict.
  destruct (accepts E (val a)) eqn:Hacc; intros H; inversion H; subst.
  exists [a]. split; [reflexivity |]. now constructor.
Qed.

Lemma load_state_dict_raises_rejected a m m' e :
  load_state_dict E a m = (Py.Raises e, m') -> rejected_only E m m'.
Proof.
  unfold load_state_dict.
  destruct (accepts E (val a)) eqn:Hacc; intros H; inversion H; subst.
  exists [a]. split; [reflexivity |]. now constructor.
Qed.

Lemma tar_false_rejected p m m' :
  _load_from_tar_file E p m = (false, m') -> rejected_only E m m'.
Proof.
  unfold _load_from_tar_file.
  destruct (torch_load E p) as [[d|w]|];
    try (intros H; inversion H; subst; apply rejected_only_refl).
  destruct (d !! "model"); [apply apply_or_false_rejected |].
  destruct (d !! "state_dict"); [apply apply_or_false_rejected |].
  intros H; inversion H; subst; apply rejected_only_refl.
Qed.

Lemma pickle_false_rejected p m m' :
  _load_from_pickle_file E p m = (false, m') -> rejected_only E m m'.
Proof.
  unfold _load_from_pickle_file.
  destruct (pickle_load E p) as [[d|w]|];
    try (intros H; inversion H; subst; apply rejected_only_refl).
  destruct (d !! "model"); [apply apply_or_false_rejected |].
  destruct (d !! "state_dict"); [apply apply_or_false_rejected |].
  destruct (d !! "weights"); [apply apply_or_false_rejected |].
  intros H; inversion H; subst; apply rejected_only_refl.
Qed.

Lemma data_directory_false_rejected depth dir m m' :
  _load_from_data_directory depth E dir m = (false, m') -> rejected_only E m m'.
Proof.
  revert dir. induction depth as [|depth IH]; intros dir; simpl.
  - intros H; inversion H; subst; apply rejected_only_refl.
  - destruct (path_exists E _); [apply pickle_false_rejected |].
    destruct (isdir E _); [apply IH |].
    intros H; inversion H; subst; apply rejected_only_refl.
Qed.

Lemma alternative_false_rejected depth p m m' :
  _try_alternative_loading depth E p m = (false, m') -> rejected_only E m m'.
Proof.
  unfold _try_alternative_loading.
  destruct (isdir E p); [apply data_directory_false_rejected |].
  destruct (Py.endswith p ".pkl"); [apply pickle_false_rejected |].
  destruct (isdir E _); [apply data_directory_false_rejected |].
  intros H; inversion H; subst; apply rejected_only_refl.
Qed.

Lemma standard_raises_rejected p m m' e :
  standard_load E p m = (Py.Raises e, m') -> rejected_only E m m'.
Proof.
  unfold standard_load.
  destruct (torch_load E p) as [[d|w]|].
  - destruct (d !! "model"); [apply load_state_dict_raises_rejected |].
    destruct (d !! "state_dict"); [apply load_state_dict_raises_rejected |].
    intros H; inversion H; subst; apply rejected_only_refl.
  - apply load_state_dict_raises_rejected.
  - intros H; inversion H; subst; apply rejected_only_refl.
Qed.

(** X1: for a path that does not end in ".tar", [load_model] returns
    normally only after a [load_state_dict] call succeeded; that call is the
    last one made and its object is the model's weights. *)
Theorem load_model_returns_with_weights depth p m r m' :
  Py.endswith p ".tar" = false ->
  load_model depth E p m = (Py.Returns r, m') ->
  r = RNone /\ applied E m m'.
Proof. apply load_model_returns_applied. Qed.

(** X2: when [load_model] raises, or returns [False] on a ".tar" path,
    every [load_state_dict] call it made was rejected: no strategy got an
    object past [load_state_dict] and failed all the same. *)
Theorem load_model_failure_means_all_rejected depth p m m' :
  (exists e, load_model depth E p m = (Py.Raises e, m')) \/
  load_model depth E p m = (Py.Returns (RBool false), m') ->
  rejected_only E m m'.
Proof.
  unfold load_model. destruct (Py.endswith p ".tar").
  - destruct (_load_from_tar_file E p m) as [b m1] eqn:Htar.
    intros [[e H] | H]; inversion H; subst.
    now apply (tar_false_rejected p).
  - destruct (standard_load E p m) as [[u|e0] m1] eqn:Hstd.
    { intros [[e H] | H]; inversion H. }
    destruct (_try_alternative_loading depth E p m1) as [ok m2] eqn:Halt.
    destruct ok; intros [[e H] | H]; inversion H; subst.
    eapply rejected_only_trans.
    + eapply standard_raises_rejected; eauto.
    + eapply alternative_false_rejected; eauto.
Qed.

(** X3: a mapping that has a "weights" entry and neither "model" nor
    "state_dict" is applied by the pickle strategy only: the .tar strategy
    returns [False] and the standard strategy raises, neither calling
    [load_state_dict]. *)
Theorem weights_key_is_pickle_only (p : string) (d : gmap string W) (w : W) (m : model W) :
  d !! "model" = None ->
  d !! "state_dict" = None ->
  d !! "weights" = Some w ->
  (pickle_load E p = Some (CkDict d) ->
     _load_from_pickle_file E p m =
       apply_or_false E {| via := Pickle; src := p; key := Some "weights"; val := w |} m) /\
  (torch_load E p = Some (CkDict d) ->
     _load_from_tar_file E p m = (false, m) /\
     standard_load E p m =
       (Py.Raises (Py.ValueError "No 'model' or 'state_dict' key found in checkpoint"), m)).
Proof.
  intros Hm Hs Hw. split.
  - intros Hl. unfold _load_from_pickle_file. now rewrite Hl, Hm, Hs, Hw.
  - intros Hl. unfold _load_from_tar_file, standard_load. now rewrite Hl, Hm, Hs.
Qed.

(** X4: the directory fallback goes down through nested ".data"
    directories to the first "data.pkl": when the first [n] levels have no
    "data.pkl" and each has a ".data" directory, level [n] has a "data.pkl"
    and [n] calls are still allowed, the result is that of the pickle
    strategy on that file. *)
Theorem data_directory_finds_nested_pickle (n depth : nat) (dir : string) (m : model W) :
  (n < depth)%nat ->
  (forall k, (k < n)%nat ->
     path_exists E (Paths.join (nested k dir) "data.pkl") = false /\
     isdir E (nested (S k) dir) = true) ->
  path_exists E (Paths.join (nested n dir) "data.pkl") = true ->
  _load_from_data_directory depth E dir m =
    _load_from_pickle_file E (Paths.join (nested n dir) "data.pkl") m.
Proof.
  revert depth dir. induction n as [|n IH]; intros depth dir Hlt Hchain Hpkl.
  - destruct depth as [|depth]; [lia |]. simpl in *. now rewrite Hpkl.
  - destruct depth as [|depth]; [lia |]. simpl.
    destruct (Hchain 0%nat ltac:(lia)) as [H0 H1]. simpl in H0, H1.
    rewrite H0, H1. apply IH; [lia | | exact Hpkl].
    intros k Hk. apply (Hchain (S k)). lia.
Qed.

Lemma no_call_pickle_only (m : model W) :
  exists new, attempts m = attempts m ++ new /\ Forall (pickle_entry E) new.
Proof. exists []. split; [now rewrite app_nil_r | constructor]. Qed.

Lemma apply_or_false_pickle_only a m :
  pickle_entry E a ->
  exists new,
    attempts (snd (apply_or_false E a m)) = attempts m ++ new /\
    Forall (pickle_entry E) new.
Proof.
  intros Ha. exists [a]. split; [| now constructor].
  rewrite apply_or_false_snd. apply load_state_dict_attempts.
Qed.

Lemma pickle_file_pickle_only q m :
  exists new,
    attempts (snd (_load_from_pickle_file E q m)) = attempts m ++ new /\
    Forall (pickle_entry E) new.
Proof.
  unfold _load_from_pickle_file.
  destruct (pickle_load E q) as [[d|w]|] eqn:Hl; try apply no_call_pickle_only.
  destruct (d !! "model") as [w|] eqn:Hm.
  { apply apply_or_false_pickle_only. split; [reflexivity |]. split; [simpl; tauto |].
    exists d, "model". simpl. auto. }
  destruct (d !! "state_dict") as [w|] eqn:Hs.
  { apply apply_or_false_pickle_only. split; [reflexivity |]. split; [simpl; tauto |].
    exists d, "state_dict". simpl. auto. }
  destruct (d !! "weights") as [w|] eqn:Hw; [| apply no_call_pickle_only].
  apply apply_or_false_pickle_only. split; [reflexivity |]. split; [simpl; tauto |].
  exists d, "weights". simpl. auto.
Qed.

Lemma data_directory_pickle_only depth q m :
  exists new,
    attempts (snd (_load_from_data_directory depth E q m)) = attempts m ++ new /\
    Forall (pickle_entry E) new.
Proof.
  revert q. induction depth as [|depth IH]; intros q; simpl;
    [apply no_call_pickle_only |].
  destruct (path_exists E _); [apply pickle_file_pickle_only |].
  destruct (isdir E _); [apply IH | apply no_call_pickle_only].
Qed.

(** X5: whatever the alternative loading does, it never applies an object
    read by [torch.load] and never an object as a whole: each of its
    [load_state_dict] calls is on the "model", "state_dict" or "weights"
    entry of a mapping read by [pickle.load]. *)
Theorem alternative_loading_is_pickle_only depth p m :
  exists new,
    attempts (snd (_try_alternative_loading depth E p m)) = attempts m ++ new /\
    Forall (pickle_entry E) new.
Proof.
  unfold _try_alternative_loading.
  destruct (isdir E p); [apply data_directory_pickle_only |].
  destruct (Py.endswith p ".pkl"); [apply pickle_file_pickle_only |].
  destruct (isdir E _); [apply data_directory_pickle_only | apply no_call_pickle_only].
Qed.

End LoaderMore.

(** A standard load of a mapping with both keys. *)
Lemma load_model_returns_with_weights_witness :
  Py.endswith "ckpt.pth" ".tar" = false /\
  applied Inputs.env_both_keys Loader.fresh_model
    {| Loader.weights := Some 1%nat;
       Loader.attempts :=
         [{| Loader.via := Loader.Standard; Loader.src := "ckpt.pth";
             Loader.key := Some "model"; Loader.val := 1%nat |}] |}.
Proof.
  split; [reflexivity |].
  exact (proj2 (load_model_returns_with_weights Inputs.env_both_keys 5 "ckpt.pth"
                  Loader.fresh_model Loader.RNone _ eq_refl eq_refl)).
Defined.

(** A checkpoint whose "model" entry the network rejects. *)
Lemma load_model_failure_means_all_rejected_witness :
  Loader.load_model 5 Inputs.env_rejecting "ckpt.pth" Loader.fresh_model =
    (Py.Raises (Py.RuntimeError
       "❌ Failed to load HRNet model from checkpoint. All loading methods failed."),
     {| Loader.weights := None;
        Loader.attempts :=
          [{| Loader.via := Loader.Standard; Loader.src := "ckpt.pth";
              Loader.key := Some "model"; Loader.val := 1%nat |}] |}) /\
  rejected_only Inputs.env_rejecting Loader.fresh_model
    {| Loader.weights := None;
       Loader.attempts :=
         [{| Loader.via := Loader.Standard; Loader.src := "ckpt.pth";
             Loader.key := Some "model"; Loader.val := 1%nat |}] |}.
Proof.
  split; [reflexivity |].
  apply (load_model_failure_means_all_rejected Inputs.env_rejecting 5 "ckpt.pth").
  left. eexists. reflexivity.
Defined.

(** A mapping with "weights" only, under each strategy. *)
Lemma weights_key_is_pickle_only_witness :
  Inputs.weights_only !! "model" = None /\
  Inputs.weights_only !! "state_dict" = None /\
  Inputs.weights_only !! "weights" = Some 7%nat /\
  Loader._load_from_tar_file Inputs.env_weights_only "ckpt.tar" Loader.fresh_model =
    (false, Loader.fresh_model).
Proof.
  repeat (split; [reflexivity |]).
  destruct (weights_key_is_pickle_only Inputs.env_weights_only "ckpt.tar"
              Inputs.weights_only 7%nat Loader.fresh_model eq_refl eq_refl eq_refl)
    as [_ H].
  exact (proj1 (H eq_refl)).
Defined.

(** "ckpt/.data/.data/data.pkl", found from "ckpt". *)
Lemma data_directory_finds_nested_pickle_witness :
  Loader.path_exists Inputs.env_nested (Paths.join (nested 2 "ckpt") "data.pkl") = true /\
  Loader._load_from_data_directory 5 Inputs.env_nested "ckpt" Loader.fresh_model =
    Loader._load_from_pickle_file Inputs.env_nested "ckpt/.data/.data/data.pkl"
      Loader.fresh_model.
Proof.
  split; [reflexivity |].
  apply (data_directory_finds_nested_pickle Inputs.env_nested 2 5 "ckpt").
  - lia.
  - intros k Hk. destruct k as [|[|k]]; [split; reflexivity | split; reflexivity | lia].
  - reflexivity.
Defined.

(** ** The detector *)

Section DetectorMore.

Import Py Detector.
Local Open Scope R_scope.

Lemma argmax_pair_real (a b : R) :
  np_argmax (LVec [FNum a; FNum b]) = Returns (if Rlt_dec a b then 1%Z else 0%Z).
Proof.
  unfold np_argmax. simpl.
  destruct (Rle_dec b a) as [Hle|Hgt], (Rlt_dec a b) as [Hlt|Hnlt];
    try reflexivity; exfalso; lra.
Qed.

(** X6: on two real scores the predicted class is 1 exactly when the
    second score is strictly greater than the first; a NaN second score
    gives 1, a NaN first score gives 0 whatever the second is. *)
Theorem argmax_of_a_pair (a b : R) (y : pyfloat) :
  (np_argmax (LVec [FNum a; FNum b]) = Returns 1%Z <-> a < b) /\
  (np_argmax (LVec [FNum a; FNum b]) = Returns 0%Z <-> b <= a) /\
  np_argmax (LVec [FNum a; FNaN]) = Returns 1%Z /\
  np_argmax (LVec [FNaN; y]) = Returns 0%Z.
Proof.
  rewrite argmax_pair_real.
  destruct (Rlt_dec a b) as [Hlt|Hnlt]; repeat split; intros;
    try reflexivity; try discriminate; try lra.
Qed.

Lemma softmax_second_half (a b : R) :
  0 < exp b / (exp a + exp b) < 1 /\
  (1 / 2 < exp b / (exp a + exp b) <-> a < b).
Proof.
  pose proof (exp_pos a) as Ha. pose proof (exp_pos b) as Hb.
  set (S := exp a + exp b) in *.
  assert (HS : 0 < S) by (unfold S; lra).
  assert (Hp : exp b / S * S = exp b) by (field; lra).
  set (p := exp b / S) in *.
  assert (Hp0 : 0 < p) by (unfold p; apply Rdiv_lt_0_compat; assumption).
  split; [split; [exact Hp0 |] |].
  - assert (p * S < 1 * S) by (rewrite Hp; unfold S; lra).
    apply Rmult_lt_reg_r with S; assumption.
  - split.
    + intros Hhalf. apply exp_lt_inv.
      assert (1 / 2 * S < p * S) by (apply Rmult_lt_compat_r; assumption).
      rewrite Hp in H. unfold S in H. lra.
    + intros Hab. apply exp_increasing in Hab.
      apply Rmult_lt_reg_r with S; [assumption |].
      rewrite Hp. unfold S. lra.
Qed.

(** X7: when the softmax returns, the probability of the morphed class on
    two real scores lies between 0 and 1, and it is at least one half
    whenever the predicted class is 1; so a result of risk level LOW has
    the predicted class 0, and a morphed verdict never comes with the risk
    level LOW. *)
Theorem morphed_class_is_never_low_risk {T : Type} (rt : runtime T) (a b : R) :
  softmax_raises rt [FNum a; FNum b] = false ->
  exists p,
    prob_morphed_of rt (LVec [FNum a; FNum b]) (FNum b) = FNum p /\
    0 <= p <= 1 /\
    (np_argmax (LVec [FNum a; FNum b]) = Returns 1%Z -> 1 / 2 <= p) /\
    (np_argmax (LVec [FNum a; FNum b]) = Returns 1%Z ->
       risk_rank (App.risk_level (FNum p)) >= 1)%nat /\
    (App.risk_level (FNum p) = "LOW" -> np_argmax (LVec [FNum a; FNum b]) = Returns 0%Z).
Proof.
  intros Hok. exists (exp b / (exp a + exp b)).
  destruct (softmax_second_half a b) as [Hrange Hhalf].
  assert (Hone : np_argmax (LVec [FNum a; FNum b]) = Returns 1%Z ->
                 1 / 2 < exp b / (exp a + exp b)).
  { rewrite argmax_pair_real. destruct (Rlt_dec a b) as [Hlt|]; [| discriminate].
    intros _. now apply Hhalf. }
  split; [| split; [lra | split; [| split]]].
  - rewrite prob_morphed_of_pair, Hok, softmax_pair. reflexivity.
  - intros H. apply Hone in H. lra.
  - intros H. apply Hone in H. unfold App.risk_level, fge.
    repeat match goal with
           | |- context [Rge_dec ?x ?y] => destruct (Rge_dec x y)
           end;
      try (exfalso; lra); unfold risk_rank; simpl; lia.
  - rewrite argmax_pair_real. unfold App.risk_level, fge.
    destruct (Rge_dec _ 0.9); [discriminate |].
    destruct (Rge_dec _ 0.75); [discriminate |].
    destruct (Rge_dec _ 0.5) as [|Hlow]; [discriminate |].
    intros _. destruct (Rlt_dec a b) as [Hlt|]; [| reflexivity].
    apply Hhalf in Hlt. exfalso. lra.
Qed.

(** X8: the degenerate outputs.  A scalar output has class 0 and the
    sigmoid of the scalar as probability; a vector of one real score has
    class 0 and, when the softmax returns, probability 1; an empty vector
    makes the extraction of the raw logit raise. *)
Theorem degenerate_outputs {T : Type} (rt : runtime T) (x : pyfloat) (r : R) :
  raw_logit_of (LScalar x) = Returns x /\
  np_argmax (LScalar x) = Returns 0%Z /\
  prob_morphed_of rt (LScalar x) x = sigmoid x /\
  raw_logit_of (LVec [FNum r]) = Returns (FNum r) /\
  np_argmax (LVec [FNum r]) = Returns 0%Z /\
  prob_morphed_of rt (LVec [FNum r]) (FNum r) =
    (if softmax_raises rt [FNum r] then sigmoid (FNum r) else FNum 1) /\
  raw_logit_of (LVec []) =
    Raises (TypeError "only length-1 arrays can be converted to Python scalars").
Proof.
  repeat split.
  unfold prob_morphed_of, softmax_prob.
  destruct (softmax_raises rt [FNum r]); [reflexivity |].
  unfold softmax, exp_sum. simpl. f_equal.
  pose proof (exp_pos r). field. lra.
Qed.

End DetectorMore.

(** The scores 1 and 2, with a softmax that returns. *)
Lemma morphed_class_is_never_low_risk_witness :
  Detector.softmax_raises
    (Inputs.rt_scores (Detector.LVec [Py.FNum 1; Py.FNum 2]) false)
    [Py.FNum 1; Py.FNum 2] = false /\
  exists p : R,
    Detector.prob_morphed_of
      (Inputs.rt_scores (Detector.LVec [Py.FNum 1; Py.FNum 2]) false)
      (Detector.LVec [Py.FNum 1; Py.FNum 2]) (Py.FNum 2) = Py.FNum p /\
    (0 <= p <= 1)%R.
Proof.
  split; [reflexivity |].
  destruct (morphed_class_is_never_low_risk
              (Inputs.rt_scores (Detector.LVec [Py.FNum 1; Py.FNum 2]) false) 1 2 eq_refl)
    as [p (Hp & Hrange & _)].
  exists p. split; assumption.
Defined.

(** ** From the detector to the response *)

Section Pipeline.

Import Py.

Variable float_of_str : string -> option pyfloat.

Lemma result_dict_other_fields image_path mt raw pc prob :
  Detector.result_dict image_path mt raw pc prob !! "model" =
    Some (PStr ("SelfMAD " ++ upper mt)) /\
  Detector.result_dict image_path mt raw pc prob !! "regions" = None /\
  Detector.result_dict image_path mt raw pc prob !! "processing_time_ms" = None.
Proof. unfold Detector.result_dict. repeat split; by simplify_map_eq. Qed.

(** The response to a completed detection, and the summary it stores. *)
Lemma respond_result_dict with_filename name id now image_path mt raw pc prob hist :
  App.respond float_of_str with_filename name id now
    (Detector.result_dict image_path mt raw pc prob) hist =
  ((200%Z,
    App.Success
      {| App.status := "success";
         App.analysis_id := id;
         App.timestamp := now;
         App.filename := if with_filename then Some name else None;
         App.result_raw_logit := PFloat raw;
         App.result_predicted_class := PInt pc;
         App.result_class_name := PStr (if (pc =? 1)%Z then "MORPHED" else "GENUINE");
         App.result_confidence := App.round1 (fmul prob (FNum 100));
         App.result_model := PStr ("SelfMAD " ++ upper mt);
         App.is_morphed := (pc =? 1)%Z;
         App.interpretation_risk_level := App.risk_level prob |}),
   History.persist_summary
     {| App.s_analysis_id := id;
        App.s_timestamp := now;
        App.s_filename := name;
        App.s_class_name := PStr (if (pc =? 1)%Z then "MORPHED" else "GENUINE");
        App.s_confidence := App.round1 (fmul prob (FNum 100));
        App.s_risk_level := App.risk_level prob;
        App.s_regions := PList [];
        App.s_processing_time_ms := PInt 0;
        App.s_thumbnail_url := "/uploads/" ++ name |}
     hist).
Proof.
  destruct (result_dict_fields image_path mt raw pc prob) as (He & Hr & Hp & Hm & Hc).
  destruct (result_dict_other_fields image_path mt raw pc prob) as (Hmo & Hre & Hpt).
  unfold App.respond, App.log_completed, getitem, get.
  rewrite He, Hm, Hr, Hp, Hc, Hmo, Hre, Hpt. reflexivity.
Qed.

Lemma detect_morphing_cases {T W : Type} (rt : Detector.runtime T)
    (self : Detector.detector W) (image_path : string) :
  (exists e,
     Detector.detect_morphing rt self image_path =
       Returns (Detector.error_dict image_path e)) \/
  (exists raw pc prob,
     Detector.detect_morphing rt self image_path =
       Returns (Detector.result_dict image_path (Detector.self_model_type self)
                  raw pc prob)).
Proof.
  unfold Detector.detect_morphing.
  destruct (Detector.preprocess_image rt _ _) as [t|e]; simpl; [| eauto].
  destruct (Detector.forward rt t) as [lg|e]; simpl; [| eauto].
  destruct (Detector.raw_logit_of lg) as [raw|e]; simpl; [| eauto].
  destruct (Detector.np_argmax lg) as [pc|e]; simpl; [| eauto].
  right. eauto.
Qed.

(** X9: with [detect_morphing] as the detector, an analysis ends in one of
    two ways.  Either the detection failed: the answer is status 500,
    "Detection failed", and the history is as it was.  Or it is status 200:
    [is_morphed] holds exactly when the class name is "MORPHED", and the
    summary put in the history carries the class name, the confidence and
    the risk level of the response.  "Analysis failed" does not occur. *)
Theorem analysis_after_detection {T W : Type} (rt : Detector.runtime T)
    (self : Detector.detector W) (file_path name id now : string)
    (hist : History.artifact App.summary) :
  (exists e,
     App.analyze_image float_of_str (Some (Detector.detect_morphing rt self))
       file_path name id now hist =
     ((500%Z, App.Error (App.DetectionFailed (PStr (exn_str e)))), hist)) \/
  (exists r s,
     App.analyze_image float_of_str (Some (Detector.detect_morphing rt self))
       file_path name id now hist =
     ((200%Z, App.Success r), History.persist_summary s hist) /\
     (App.is_morphed r = true <-> App.result_class_name r = PStr "MORPHED") /\
     (App.is_morphed r = false <-> App.result_class_name r = PStr "GENUINE") /\
     App.s_class_name s = App.result_class_name r /\
     App.s_confidence s = App.result_confidence r /\
     App.s_risk_level s = App.interpretation_risk_level r /\
     App.s_filename s = name).
Proof.
  unfold App.analyze_image.
  destruct (detect_morphing_cases rt self file_path)
    as [[e He] | (raw & pc & prob & Hd)].
  - left. exists e. rewrite He. unfold App.respond.
    destruct (error_dict_fields file_path e) as [-> _]. reflexivity.
  - right. rewrite Hd, respond_result_dict.
    eexists. eexists. split; [reflexivity |]. simpl.
    destruct (pc =? 1)%Z; repeat split; intros; try reflexivity; discriminate.
Qed.

End Pipeline.

(** ** The response and the history *)

Section ResponseMore.

Import Py App.

Variable float_of_str : string -> option pyfloat.

(** X10: whatever the detector's result is, [respond] answers in one of
    three ways: status 500 "Detection failed" with the history as it was;
    status 500 "Analysis failed"; or status 200 with a success body.  For
    a success the record step has been run on a summary that has the class
    name, the confidence and the risk level of the response: on a history
    file that is missing, corrupt or an array that summary is the first
    entry listed afterwards, and on a file holding another document the
    file is as it was. *)
Theorem respond_outcomes (with_filename : bool) (name id now : string)
    (result : gmap string pyval) (hist : History.artifact summary) :
  (exists detail,
     respond float_of_str with_filename name id now result hist =
       ((500%Z, Error (DetectionFailed detail)), hist) /\
     result !! "error" = Some detail) \/
  (exists e,
     fst (respond float_of_str with_filename name id now result hist) =
       (500%Z, Error (AnalysisFailed e)) /\
     result !! "error" = None) \/
  (exists r s,
     respond float_of_str with_filename name id now result hist =
       ((200%Z, Success r), History.persist_summary s hist) /\
     result !! "error" = None /\
     status r = "success" /\
     s_class_name s = result_class_name r /\
     s_confidence s = result_confidence r /\
     s_risk_level s = interpretation_risk_level r /\
     (History.log_like hist = true ->
        History.get_history (History.persist_summary s hist) =
          (200%Z,
           History.HistorySuccess
             (History.JArray (s :: firstn 99 (History.entries hist))))) /\
     (History.log_like hist = false -> History.persist_summary s hist = hist) /\
     exists prob,
       py_float float_of_str (get result "prob_morphed" (PFloat (FNum 0))) = Returns prob /\
       interpretation_risk_level r = risk_level prob /\
       result_confidence r = round1 (fmul prob (FNum 100))).
Proof.
  unfold respond.
  destruct (result !! "error") as [detail|] eqn:Herr; [left; eauto |].
  right.
  destruct (py_float _ _) as [prob|e] eqn:Hprob; [| left; eauto].
  destruct (log_completed result) as [u|e]; [right | left; eauto].
  eexists. eexists. split; [reflexivity |]. simpl.
  repeat split.
  - destruct hist as [| |[h|]]; intros H; try reflexivity. discriminate.
  - destruct hist as [| |[h|]]; intros H; try reflexivity; discriminate.
  - exists prob. repeat split.
Qed.

End ResponseMore.

Section HistoryMore.

Import History.

Context {entry : Type}.

(** X11: once the history file holds a JSON document that is no array, no
    summary is recorded any more: every record leaves the file as it is,
    and [get_history] keeps answering with that document. *)
Theorem foreign_document_blocks_history (rs : list entry) :
  persist_all rs (Stored (@JOther entry)) = Stored JOther /\
  get_history (persist_all rs (Stored (@JOther entry))) =
    (200%Z, HistorySuccess JOther).
Proof.
  assert (H : persist_all rs (Stored (@JOther entry)) = Stored JOther).
  { induction rs as [|r rs IH]; [reflexivity |]. exact IH. }
  rewrite H. split; reflexivity.
Qed.

(** X12: on a file that can be read as a list, the summary just recorded
    is the first entry that [get_history] lists, and the entries behind it
    are the former ones in their order, up to 99 of them. *)
Theorem recorded_summary_is_listed_first (s : entry) (a : artifact entry) :
  log_like a = true ->
  get_history (persist_summary s a) =
    (200%Z, HistorySuccess (JArray (s :: firstn 99 (entries a)))).
Proof.
  destruct a as [| |[h|]]; intros H; try reflexivity. discriminate.
Qed.

End HistoryMore.

(** A record on a corrupt file. *)
Lemma recorded_summary_is_listed_first_witness :
  History.log_like (@History.Corrupt nat) = true /\
  History.get_history (History.persist_summary 5%nat History.Corrupt) =
    (200%Z, History.HistorySuccess (History.JArray [5%nat])).
Proof.
  split; [reflexivity |].
  exact (recorded_summary_is_listed_first 5%nat History.Corrupt eq_refl).
Defined.

(** ** Confidence and risk *)

Section Numbers.

Import Py App.
Local Open Scope R_scope.

Lemma round_half_even_close (r : R) :
  - (1 / 2) <= IZR (round_half_even r) - r <= 1 / 2.
Proof.
  unfold round_half_even.
  destruct (base_Int_part r) as [Hlo Hhi].
  destruct (Rlt_dec (r - IZR (Int_part r)) (1 / 2)) as [Hlt|Hge].
  - lra.
  - destruct (Rlt_dec (1 / 2) (r - IZR (Int_part r))) as [Hgt|Hle].
    + rewrite plus_IZR. lra.
    + destruct (Z.even (Int_part r)); [| rewrite plus_IZR]; lra.
Qed.

(** X13: for a probability between 0 and 1 the confidence lies between 0
    and 100. *)
Theorem confidence_between_0_and_100 (p : R) :
  0 <= p <= 1 ->
  exists c : R,
    round1 (fmul (FNum p) (FNum 100)) = FNum c /\
    0 <= c <= 100.
Proof.
  intros Hp. exists (IZR (round_half_even (p * 100 * 10)) / 10).
  pose proof (round_half_even_close (p * 100 * 10)) as Hc.
  split; [reflexivity |].
  assert (H0 : (0 <= round_half_even (p * 100 * 10))%Z).
  { assert (H : (-1 < round_half_even (p * 100 * 10))%Z) by (apply lt_IZR; lra). lia. }
  assert (H1 : (round_half_even (p * 100 * 10) <= 1000)%Z).
  { assert (H : (round_half_even (p * 100 * 10) < 1001)%Z) by (apply lt_IZR; lra). lia. }
  apply IZR_le in H0, H1. lra.
Qed.

(** X14: the risk level never goes down when the probability goes up. *)
Theorem risk_level_monotone (p q : R) :
  p <= q ->
  (risk_rank (risk_level (FNum p)) <= risk_rank (risk_level (FNum q)))%nat.
Proof.
  intros Hpq. unfold risk_level, fge.
  repeat match goal with
         | |- context [Rge_dec ?a ?b] => destruct (Rge_dec a b)
         end;
    try (exfalso; lra); unfold risk_rank; simpl; lia.
Qed.

End Numbers.

(** The probability one half. *)
Lemma confidence_between_0_and_100_witness :
  (0 <= 1 / 2 <= 1)%R /\
  exists c : R,
    App.round1 (Py.fmul (Py.FNum (1 / 2)) (Py.FNum 100)) = Py.FNum c /\
    (0 <= c <= 100)%R.
Proof.
  assert (H : (0 <= 1 / 2 <= 1)%R) by lra.
  split; [exact H |].
  exact (confidence_between_0_and_100 (1 / 2) H).
Defined.

(** The probabilities 0.6 and 0.8. *)
Lemma risk_level_monotone_witness :
  (0.6 <= 0.8)%R /\
  (risk_rank (App.risk_level (Py.FNum 0.6)) <=
   risk_rank (App.risk_level (Py.FNum 0.8)))%nat.
Proof.
  assert (H : (0.6 <= 0.8)%R) by lra.
  split; [exact H | exact (risk_level_monotone 0.6 0.8 H)].
Defined.

(** ** File names and payloads *)

Section StringsMore.

Import Py PyStr.

Lemma chars_app (a b : string) :
  list_ascii_of_string (a ++ b) = (list_ascii_of_string a ++ list_ascii_of_string b)%list.
Proof. induction a as [|c a IH]; simpl; [reflexivity | now rewrite IH]. Qed.

Lemma free_of_cons (sep c : ascii) (s : string) :
  free_of sep (String c s) <-> c <> sep /\ free_of sep s.
Proof. unfold free_of. simpl. intuition congruence. Qed.

Lemma free_of_not_substring (sep : ascii) (s : string) :
  free_of sep s -> ~ Substring (String sep "") s.
Proof.
  intros Hfree [pre [post Hs]]. apply Hfree. rewrite Hs, !chars_app.
  apply in_or_app. right. simpl. now left.
Qed.

Lemma after_last_none (sep : ascii) (s : string) :
  after_last sep s = None <-> free_of sep s.
Proof.
  induction s as [|c s IH]; simpl.
  - unfold free_of. simpl. tauto.
  - rewrite free_of_cons, <- IH. destruct (after_last sep s) as [t|].
    + split; [discriminate | intros [_ H]; discriminate].
    + destruct (Ascii.eqb_spec c sep) as [->|Hne].
      * split; [discriminate | intros [H _]; congruence].
      * tauto.
Qed.

Lemma after_last_some (sep : ascii) (s t : string) :
  after_last sep s = Some t <->
  exists pre, s = pre ++ String sep t /\ free_of sep t.
Proof.
  split.
  - revert t. induction s as [|c s IH]; simpl; intros t; [discriminate |].
    destruct (after_last sep s) as [t'|] eqn:Hrest.
    + intros H. inversion H; subst. destruct (IH t eq_refl) as [pre [Hs Hfree]].
      exists (String c pre). split; [simpl; now rewrite Hs | exact Hfree].
    + destruct (Ascii.eqb_spec c sep) as [->|Hne]; [| discriminate].
      intros H. inversion H; subst. exists "". split; [reflexivity |].
      now apply after_last_none.
  - intros [pre [-> Hfree]]. induction pre as [|c pre IH]; simpl.
    + apply after_last_none in Hfree. rewrite Hfree.
      now rewrite Ascii.eqb_refl.
    + now rewrite IH.
Qed.

Lemma str_mem_true_iff (x : string) (xs : list string) :
  str_mem x xs = true <-> In x xs.
Proof.
  unfold str_mem. rewrite existsb_exists. split.
  - intros [y [Hin Heq]]. apply String.eqb_eq in Heq. now subst.
  - intros Hin. exists x. split; [exact Hin | apply String.eqb_refl].
Qed.

(** X15: a file name is allowed exactly when it is of the form
    [stem.ext] where [ext] has no dot and, put in lower case, is one of the
    allowed extensions; so only the text after the last dot counts, and its
    case does not. *)
Theorem allowed_file_iff (cfg : Config.config) (filename : string) :
  Requests.allowed_file cfg filename = true <->
  exists stem ext,
    filename = stem ++ "." ++ ext /\
    free_of "."%char ext /\
    In (lower ext) (Config.ALLOWED_EXTENSIONS cfg).
Proof.
  unfold Requests.allowed_file, rsplit1_1. split.
  - intros H. apply andb_true_iff in H. destruct H as [_ H].
    destruct (after_last "." filename) as [ext|] eqn:Hext; [| discriminate].
    apply after_last_some in Hext. destruct Hext as [stem [Hf Hfree]].
    exists stem, ext. repeat split; [exact Hf | exact Hfree |].
    now apply str_mem_true_iff.
  - intros [stem [ext (Hf & Hfree & Hin)]].
    assert (Hext : after_last "." filename = Some ext).
    { apply after_last_some. exists stem. split; assumption. }
    rewrite Hext. apply andb_true_iff. split.
    + apply str_in_true_iff. exists stem, ext. exact Hf.
    + now apply str_mem_true_iff.
Qed.

Lemma split_nonempty (sep : ascii) (s : string) : split sep s <> [].
Proof.
  induction s as [|c s IH]; simpl; [discriminate |].
  destruct (Ascii.eqb c sep); [discriminate |].
  destruct (split sep s); [contradiction | discriminate].
Qed.

Lemma split_free (sep : ascii) (s : string) :
  free_of sep s -> split sep s = [s].
Proof.
  induction s as [|c s IH]; simpl; [reflexivity |].
  intros H. apply free_of_cons in H. destruct H as [Hne Hfree].
  destruct (Ascii.eqb_spec c sep) as [->|_]; [congruence |].
  now rewrite (IH Hfree).
Qed.

Lemma split_app (sep : ascii) (pre rest : string) :
  free_of sep pre ->
  split sep (pre ++ String sep rest) = pre :: split sep rest.
Proof.
  induction pre as [|c pre IH]; simpl; intros H.
  - now rewrite Ascii.eqb_refl.
  - apply free_of_cons in H. destruct H as [Hne Hfree].
    destruct (Ascii.eqb_spec c sep) as [->|_]; [congruence |].
    now rewrite (IH Hfree).
Qed.

(** X16: the text handed to the base64 decoder.  A string without a comma
    is taken whole; of a string with commas, only the text between the
    first and the second comma is taken: the text before the first comma
    is dropped, and so is everything from a second comma on. *)
Theorem image_payload_between_commas (pre mid rest : string) :
  free_of ","%char pre ->
  free_of ","%char mid ->
  Requests.image_payload (PStr pre) = Returns pre /\
  Requests.image_payload (PStr (pre ++ "," ++ mid)) = Returns mid /\
  Requests.image_payload (PStr (pre ++ "," ++ mid ++ "," ++ rest)) = Returns mid.
Proof.
  intros Hpre Hmid. unfold Requests.image_payload. repeat split.
  - assert (H : str_in "," pre = false).
    { apply str_in_false_iff. now apply free_of_not_substring. }
    now rewrite H.
  - assert (H : str_in "," (pre ++ "," ++ mid) = true).
    { apply str_in_true_iff. now exists pre, mid. }
    rewrite H. change (pre ++ "," ++ mid) with (pre ++ String "," mid).
    rewrite (split_app _ _ _ Hpre), (split_free _ _ Hmid). reflexivity.
  - assert (H : str_in "," (pre ++ "," ++ mid ++ "," ++ rest) = true).
    { apply str_in_true_iff. now exists pre, (mid ++ "," ++ rest). }
    rewrite H.
    change (pre ++ "," ++ mid ++ "," ++ rest)
      with (pre ++ String "," (mid ++ String "," rest)).
    rewrite (split_app _ _ _ Hpre), (split_app _ _ _ Hmid). reflexivity.
Qed.

End StringsMore.

(** A data URI: the payload follows the comma. *)
Lemma image_payload_between_commas_witness :
  free_of ","%char "data:image/png;base64" /\
  free_of ","%char "iVBORw0KGgo" /\
  Requests.image_payload (Py.PStr "data:image/png;base64,iVBORw0KGgo") =
    Py.Returns "iVBORw0KGgo".
Proof.
  assert (H1 : free_of ","%char "data:image/png;base64").
  { apply after_last_none. reflexivity. }
  assert (H2 : free_of ","%char "iVBORw0KGgo").
  { apply after_last_none. reflexivity. }
  split; [exact H1 | split; [exact H2 |]].
  destruct (image_payload_between_commas "data:image/png;base64" "iVBORw0KGgo" "" H1 H2)
    as (_ & H & _).
  exact H.
Defined.

(** ** Requests *)

Section RequestsMore.

Import Py.

Variable float_of_str : string -> option pyfloat.
Context {bytes : Type}.
Variable b64decode : string -> outcome bytes.
Variable cfg : Config.config.
Variable w : Requests.world.
Variable detector : option (string -> outcome (gmap string pyval)).

Lemma respond_code with_filename name id now result hist :
  fst (fst (App.respond float_of_str with_filename name id now result hist)) = 200%Z \/
  fst (fst (App.respond float_of_str with_filename name id now result hist)) = 500%Z.
Proof.
  unfold App.respond. destruct (result !! "error"); [now right |].
  destruct (App.py_float _ _); [| now right].
  destruct (App.log_completed result); [now left | now right].
Qed.

Lemma app_analyze_image_code path name id now hist :
  fst (fst (App.analyze_image float_of_str detector path name id now hist)) = 200%Z \/
  fst (fst (App.analyze_image float_of_str detector path name id now hist)) = 500%Z.
Proof.
  unfold App.analyze_image. destruct detector as [detect|]; [| now right].
  destruct (detect path); [apply respond_code | now right].
Qed.

Lemma app_analyze_image_base64_code path name id now hist :
  fst (fst (App.analyze_image_base64 float_of_str detector path name id now hist)) = 200%Z \/
  fst (fst (App.analyze_image_base64 float_of_str detector path name id now hist)) = 500%Z.
Proof.
  unfold App.analyze_image_base64. destruct detector as [detect|]; [| now right].
  destruct (detect path); [apply respond_code | now right].
Qed.

(** X17: [POST /api/analyze] answers with status 400 exactly when the
    request has no image part, an empty file name, or a file name that is
    not allowed; such an answer is a rejection that leaves the history as
    it was. *)
Theorem analyze_image_rejections (image : option string) (id now : string)
    (hist : History.artifact App.summary) :
  (fst (fst (Requests.analyze_image float_of_str cfg w detector image id now hist)) = 400%Z <->
   image = None \/ image = Some "" \/
   exists f, image = Some f /\ Requests.allowed_file cfg f = false) /\
  (fst (fst (Requests.analyze_image float_of_str cfg w detector image id now hist)) = 400%Z ->
   (exists e,
      snd (fst (Requests.analyze_image float_of_str cfg w detector image id now hist)) =
        Requests.Rejected e) /\
   snd (Requests.analyze_image float_of_str cfg w detector image id now hist) = hist).
Proof.
  unfold Requests.analyze_image.
  destruct image as [f|]; [| simpl; split; [split; auto | eauto]].
  destruct (String.eqb_spec f "") as [->|Hne];
    [simpl; split; [split; auto | eauto] |].
  destruct (Requests.allowed_file cfg f) eqn:Hallowed; simpl;
    [| split; [split; eauto | eauto]].
  assert (Hcode :
    fst (fst (match Requests.save_uploaded_file cfg w f with
              | Returns (file_path, unique_filename) =>
                  let '(code, b, hist') :=
                    App.analyze_image float_of_str detector file_path unique_filename
                      id now hist in
                  (code, Requests.Analysed b, hist')
              | Raises e =>
                  (500%Z, Requests.Analysed (App.Error (App.AnalysisFailed e)), hist)
              end)) <> 400%Z).
  { destruct (Requests.save_uploaded_file cfg w f) as [[path name]|e]; [| discriminate].
    pose proof (app_analyze_image_code path name id now hist) as Hc.
    destruct (App.analyze_image float_of_str detector path name id now hist)
      as [[code b] hist'].
    simpl in *. destruct Hc as [-> | ->]; discriminate. }
  split; [split |].
  - intros H. destruct (Hcode H).
  - intros [H | [H | [f' [H Hf']]]]; try discriminate;
      inversion H; subst; congruence.
  - intros H. destruct (Hcode H).
Qed.

(** X18: when [secure_filename] leaves a name without a dot, an upload
    whose name was allowed is answered with status 500, "Analysis failed",
    for the [IndexError] of the extension lookup; the detector is not
    consulted and the history is as it was. *)
Theorem sanitised_name_without_dot_fails (f id now : string)
    (hist : History.artifact App.summary) :
  f <> "" ->
  Requests.allowed_file cfg f = true ->
  free_of "."%char (Requests.secure_filename w f) ->
  Requests.analyze_image float_of_str cfg w detector (Some f) id now hist =
    ((500%Z,
      Requests.Analysed
        (App.Error (App.AnalysisFailed (IndexError "list index out of range")))),
     hist).
Proof.
  intros Hne Hallowed Hfree. unfold Requests.analyze_image.
  destruct (String.eqb_spec f "") as [|_]; [contradiction |].
  rewrite Hallowed. simpl.
  unfold Requests.save_uploaded_file, PyStr.rsplit1_1.
  apply after_last_none in Hfree. now rewrite Hfree.
Qed.

(** X19: the name under which an upload is stored is the hex digits of
    the fresh identifier, a dot, and the extension of the sanitised name in
    lower case; it lies in the upload folder. *)
Theorem stored_upload_name (f file_path unique_filename : string) :
  Requests.save_uploaded_file cfg w f = Returns (file_path, unique_filename) ->
  exists stem ext,
    Requests.secure_filename w f = stem ++ "." ++ ext /\
    free_of "."%char ext /\
    unique_filename = Requests.uuid_hex w ++ "." ++ PyStr.lower ext /\
    file_path = Paths.join (Config.UPLOAD_FOLDER cfg) unique_filename.
Proof.
  unfold Requests.save_uploaded_file, PyStr.rsplit1_1.
  destruct (PyStr.after_last "." (Requests.secure_filename w f)) as [ext|] eqn:Hext;
    simpl; [| discriminate].
  destruct (Requests.write_ok w); [| discriminate].
  intros H. inversion H; subst.
  apply after_last_some in Hext. destruct Hext as [stem [Hs Hfree]].
  exists stem, ext. repeat split; assumption.
Qed.

Lemma analyze_decoded_code id now hist :
  exists code b hist',
    Requests.analyze_decoded float_of_str cfg w detector id now hist =
      ((code, Requests.Analysed b), hist') /\
    (code = 200%Z \/ code = 500%Z).
Proof.
  unfold Requests.analyze_decoded. destruct (Requests.write_ok w); [| eauto 6].
  match goal with
  | |- context [App.analyze_image_base64 _ _ ?p ?n _ _ _] =>
      pose proof (app_analyze_image_base64_code p n id now hist) as Hc;
      destruct (App.analyze_image_base64 float_of_str detector p n id now hist)
        as [[code b] hist']
  end.
  simpl in Hc. eauto 6.
Qed.

(** X20: [POST /api/analyze-base64] answers with status 400 exactly when
    the answer is a rejection, and then the history is as it was.  For a
    JSON object that is so exactly when the object has no "image" or the
    payload cannot be taken or decoded.  A body for which [get_json]
    raises, a true boolean and a number other than zero are answered with
    status 500, "Analysis failed", the history being as it was. *)
Theorem analyze_image_base64_rejections (body : Requests.json_body)
    (id now : string) (hist : History.artifact App.summary) :
  (fst (fst (Requests.analyze_image_base64 float_of_str b64decode cfg w detector
               body id now hist)) = 400%Z <->
   exists e,
     snd (fst (Requests.analyze_image_base64 float_of_str b64decode cfg w detector
                 body id now hist)) = Requests.Rejected e) /\
  (fst (fst (Requests.analyze_image_base64 float_of_str b64decode cfg w detector
               body id now hist)) = 400%Z ->
   snd (Requests.analyze_image_base64 float_of_str b64decode cfg w detector
          body id now hist) = hist) /\
  (forall d,
     body = Requests.JsonObject d ->
     (fst (fst (Requests.analyze_image_base64 float_of_str b64decode cfg w detector
                  body id now hist)) = 400%Z <->
      d !! "image" = None \/
      exists v e, d !! "image" = Some v /\
                  bind (Requests.image_payload v) b64decode = Raises e)) /\
  (forall v,
     body = Requests.JsonValue v ->
     v = PBool true \/ (exists z, v = PInt z /\ z <> 0%Z) ->
     exists msg,
       Requests.analyze_image_base64 float_of_str b64decode cfg w detector
         body id now hist =
       ((500%Z, Requests.Analysed (App.Error (App.AnalysisFailed (TypeError msg)))), hist)) /\
  (forall e,
     body = Requests.GetJsonRaises e ->
     Requests.analyze_image_base64 float_of_str b64decode cfg w detector
       body id now hist =
     ((500%Z, Requests.Analysed (App.Error (App.AnalysisFailed e))), hist)).
Proof.
  assert (Hgen :
    (fst (fst (Requests.analyze_image_base64 float_of_str b64decode cfg w detector
                 body id now hist)) = 400%Z <->
     exists e,
       snd (fst (Requests.analyze_image_base64 float_of_str b64decode cfg w detector
                   body id now hist)) = Requests.Rejected e) /\
    (fst (fst (Requests.analyze_image_base64 float_of_str b64decode cfg w detector
                 body id now hist)) = 400%Z ->
     snd (Requests.analyze_image_base64 float_of_str b64decode cfg w detector
            body id now hist) = hist)).
  { unfold Requests.analyze_image_base64.
    destruct (analyze_decoded_code id now hist) as (code & b & hist' & Hdec & Hcode).
    assert (Hrej : forall e,
      (fst (fst ((400%Z, Requests.Rejected e), hist)) = 400%Z <->
       exists e', snd (fst ((400%Z, Requests.Rejected e), hist)) = Requests.Rejected e') /\
      (fst (fst ((400%Z, Requests.Rejected e), hist)) = 400%Z ->
       snd ((400%Z, Requests.Rejected e), hist) = hist)).
    { intros e. simpl. split; [split; eauto | reflexivity]. }
    assert (Hfail : forall e,
      (fst (fst ((500%Z, Requests.Analysed (App.Error (App.AnalysisFailed e))), hist))
         = 400%Z <->
       exists e', snd (fst ((500%Z, Requests.Analysed (App.Error (App.AnalysisFailed e))),
                            hist)) = Requests.Rejected e') /\
      (fst (fst ((500%Z, Requests.Analysed (App.Error (App.AnalysisFailed e))), hist))
         = 400%Z ->
       snd ((500%Z, Requests.Analysed (App.Error (App.AnalysisFailed e))), hist) = hist)).
    { intros e. simpl. split; [split; [discriminate | intros [e' H]; discriminate] |
                               discriminate]. }
    destruct body as [e|v|d].
    - apply Hfail.
    - destruct (negb (Requests.truthy v)); [apply Hrej |].
      destruct (Requests.image_in v) as [[|]|e]; [apply Hrej | apply Hrej | apply Hfail].
    - destruct (decide (d = ∅)); [apply Hrej |].
      destruct (d !! "image") as [v|]; [| apply Hrej].
      destruct (bind (Requests.image_payload v) b64decode) as [image_data|e];
        [| apply Hrej].
      rewrite Hdec. simpl. split; [split |].
      + intros ->. destruct Hcode; discriminate.
      + intros [e' H]. discriminate.
      + intros ->. destruct Hcode; discriminate. }
  destruct Hgen as [Hiff Hhist].
  split; [exact Hiff |]. split; [exact Hhist |]. split; [| split].
  - intros d ->. unfold Requests.analyze_image_base64.
    destruct (analyze_decoded_code id now hist) as (code & b & hist' & Hdec & Hcode).
    destruct (decide (d = ∅)) as [->|Hne].
    { simpl. split; [intros _; left; apply lookup_empty | reflexivity]. }
    destruct (d !! "image") as [v|] eqn:Himg;
      [| simpl; split; [intros _; now left | reflexivity]].
    destruct (bind (Requests.image_payload v) b64decode) as [image_data|e] eqn:Hpay.
    + rewrite Hdec. simpl. split.
      * intros ->. destruct Hcode; discriminate.
      * intros [H | (v' & e & Hv & He)]; [discriminate |].
        inversion Hv; subst. congruence.
    + simpl. split; [intros _ | reflexivity]. right. exists v, e. now split.
  - intros v -> [-> | [z [-> Hz]]]; unfold Requests.analyze_image_base64; simpl.
    + eauto.
    + destruct (Z.eqb_spec z 0) as [|_]; [contradiction |]. simpl. eauto.
  - intros e ->. reflexivity.
Qed.

End RequestsMore.

(** The upload "..jpg", sanitised to "jpg". *)
Lemma sanitised_name_without_dot_fails_witness :
  Requests.allowed_file Inputs.cfg_default "..jpg" = true /\
  Requests.analyze_image (fun _ => None) Inputs.cfg_default Inputs.world_stripping None
    (Some "..jpg") "id-1" "2024-01-01T00:00:00" History.Missing =
    ((500%Z,
      Requests.Analysed
        (App.Error (App.AnalysisFailed (Py.IndexError "list index out of range")))),
     History.Missing).
Proof.
  assert (Hfree : free_of "."%char (Requests.secure_filename Inputs.world_stripping "..jpg")).
  { apply after_last_none. reflexivity. }
  split; [reflexivity |].
  apply (sanitised_name_without_dot_fails (fun _ => None) Inputs.cfg_default
           Inputs.world_stripping None "..jpg" "id-1" "2024-01-01T00:00:00"
           History.Missing);
    [discriminate | reflexivity | exact Hfree].
Defined.

(** The upload "Photo.JPG". *)
Lemma stored_upload_name_witness :
  Requests.save_uploaded_file Inputs.cfg_default Inputs.world_plain "Photo.JPG" =
    Py.Returns ("/srv/backen/uploads/0123abcd.jpg", "0123abcd.jpg") /\
  exists stem ext,
    "Photo.JPG" = stem ++ "." ++ ext /\
    "0123abcd.jpg" = "0123abcd" ++ "." ++ PyStr.lower ext.
Proof.
  split; [reflexivity |].
  destruct (stored_upload_name Inputs.cfg_default Inputs.world_plain "Photo.JPG"
              "/srv/backen/uploads/0123abcd.jpg" "0123abcd.jpg" eq_refl)
    as (stem & ext & Hs & _ & Hu & _).
  exists stem, ext. split; assumption.
Defined.

(** ** The configuration *)

Section ConfigMore.

Import Config.

Lemma get_config_cases (base_dir : string) (environ : gmap string string) :
  get_config base_dir environ =
    if String.eqb (environ_get environ "FLASK_ENV" "development") "production"
    then ProductionConfig base_dir environ
    else if String.eqb (environ_get environ "FLASK_ENV" "development") "testing"
    then TestingConfig base_dir environ
    else DevelopmentConfig base_dir environ.
Proof.
  unfold get_config, config_by_name.
  set (e := environ_get environ "FLASK_ENV" "development").
  destruct (String.eqb_spec e "production") as [->|Hp]; [reflexivity |].
  destruct (String.eqb_spec e "testing") as [->|Ht]; [reflexivity |].
  destruct (String.eqb_spec e "development") as [->|Hd]; [reflexivity |].
  destruct (String.eqb_spec e "default") as [->|Hf]; [reflexivity |].
  rewrite !lookup_insert_ne by congruence. now rewrite lookup_empty.
Qed.

(** X21: the debug flag of the configuration in use is off exactly when
    FLASK_ENV is "production"; the variable FLASK_DEBUG has no effect on it.
    The model path and the model type come from the environment alone,
    whatever FLASK_ENV is. *)
Theorem debug_follows_flask_env (base_dir : string) (environ : gmap string string) :
  (DEBUG (get_config base_dir environ) = false <->
   environ !! "FLASK_ENV" = Some "production") /\
  (forall v,
     DEBUG (get_config base_dir (<["FLASK_DEBUG" := v]> environ)) =
     DEBUG (get_config base_dir environ)) /\
  MODEL_PATH (get_config base_dir environ) = environ_get environ "MODEL_PATH" "" /\
  MODEL_TYPE (get_config base_dir environ) =
    environ_get environ "MODEL_TYPE" "efficientnet-b0".
Proof.
  assert (Hdebug : forall env,
            DEBUG (get_config base_dir env) =
            negb (String.eqb (environ_get env "FLASK_ENV" "development") "production")).
  { intros env. rewrite get_config_cases.
    destruct (String.eqb _ "production"); [reflexivity |].
    destruct (String.eqb _ "testing"); reflexivity. }
  split; [| split; [| split]].
  - rewrite Hdebug. unfold environ_get.
    destruct (environ !! "FLASK_ENV") as [e|]; simpl.
    + destruct (String.eqb_spec e "production") as [->|Hne]; simpl.
      * tauto.
      * split; [discriminate | congruence].
    + split; discriminate.
  - intros v. rewrite !Hdebug. unfold environ_get.
    now rewrite lookup_insert_ne by discriminate.
  - rewrite get_config_cases.
    destruct (String.eqb _ "production"); [reflexivity |].
    destruct (String.eqb _ "testing"); reflexivity.
  - rewrite get_config_cases.
    destruct (String.eqb _ "production"); [reflexivity |].
    destruct (String.eqb _ "testing"); reflexivity.
Qed.

End ConfigMore.

(** ** Start-up *)

Section StartupMore.

Import Requests.

Context {W : Type}.
Variable E : Loader.env W.
Variable cfg : Config.config.
Variable pf : platform.

(** X22: when the detector module is available, the network is built and
    moved to the device without an error, and the configured model path is
    empty or names nothing that exists, [initialize_model] returns [True]
    without reading a checkpoint: no [load_state_dict] call has been made,
    and the health check reports the model as loaded. *)
Theorem initialize_model_without_checkpoint (depth : nat) (srv : server W) :
  MODEL_AVAILABLE srv = true ->
  build_network pf (Config.MODEL_TYPE cfg) = Py.Returns tt ->
  to_device pf = Py.Returns tt ->
  Config.MODEL_PATH cfg = "" \/ Loader.path_exists E (Config.MODEL_PATH cfg) = false ->
  initialize_model pf depth E cfg srv =
    (true,
     {| MODEL_AVAILABLE := true;
        detector :=
          Some {| Detector.self_model_type := Config.MODEL_TYPE cfg;
                  Detector.self_model := Loader.fresh_model;
                  Detector.self_image_size := Detector.image_size (Config.MODEL_TYPE cfg) |} |}) /\
  model_loaded (health_check cfg (snd (initialize_model pf depth E cfg srv))) = true.
Proof.
  intros Hav Hbuild Hdev Hpath.
  unfold initialize_model, new_detector, Detector.init. rewrite Hav, Hbuild. simpl.
  assert (Hskip :
    negb (String.eqb (Config.MODEL_PATH cfg) "") &&
    Loader.path_exists E (Config.MODEL_PATH cfg) = false).
  { destruct Hpath as [-> | ->]; [reflexivity | apply andb_false_r]. }
  rewrite Hskip. simpl. rewrite Hdev. split; reflexivity.
Qed.

(** X23: [initialize_model] returns [False] only if the detector module is
    not available, or building the network raised, or moving it to the
    device raised, or the model path is not empty, exists, does not end in
    ".tar" and [load_model] raised on it; the state is then as it was.  So
    on a path ending in ".tar" no failure to load the checkpoint makes it
    return [False]. *)
Theorem initialize_model_fails_only_on_error (depth : nat) (srv srv' : server W) :
  initialize_model pf depth E cfg srv = (false, srv') ->
  srv' = srv /\
  (MODEL_AVAILABLE srv = false \/
   (exists e, build_network pf (Config.MODEL_TYPE cfg) = Py.Raises e) \/
   (exists e, to_device pf = Py.Raises e) \/
   (Config.MODEL_PATH cfg <> "" /\
    Loader.path_exists E (Config.MODEL_PATH cfg) = true /\
    Py.endswith (Config.MODEL_PATH cfg) ".tar" = false /\
    exists e m',
      Loader.load_model depth E (Config.MODEL_PATH cfg) Loader.fresh_model =
        (Py.Raises e, m'))).
Proof.
  unfold initialize_model, new_detector, Detector.init.
  destruct (MODEL_AVAILABLE srv) eqn:Hav; simpl;
    [| intros H; inversion H; auto].
  destruct (build_network pf (Config.MODEL_TYPE cfg)) as [[]|eb] eqn:Hbuild; simpl;
    [| intros H; inversion H; eauto 6].
  destruct (String.eqb_spec (Config.MODEL_PATH cfg) "") as [Hempty|Hne]; simpl.
  { destruct (to_device pf) as [[]|ed]; simpl; intros H; inversion H; eauto 7. }
  destruct (Loader.path_exists E (Config.MODEL_PATH cfg)) eqn:Hex.
  2:{ simpl. destruct (to_device pf) as [[]|ed]; simpl; intros H; inversion H; eauto 7. }
  destruct (Loader.load_model depth E (Config.MODEL_PATH cfg) Loader.fresh_model)
    as [[r|e] m'] eqn:Hload; simpl.
  { destruct (to_device pf) as [[]|ed]; simpl; intros H; inversion H; eauto 7. }
  intros H. inversion H; subst. split; [reflexivity |]. do 3 right.
  repeat split; try assumption; [| eauto].
  destruct (Py.endswith (Config.MODEL_PATH cfg) ".tar") eqn:Htar; [| reflexivity].
  rewrite (load_model_tar_returns E depth _ _ Htar) in Hload. discriminate.
Qed.

End StartupMore.

(** ** The architectures *)

(** X24: for every model name for which [Detector] builds a network, the
    image size is the one of its family: 224 for "efficientnet-b0", "swin"
    and "resnet", 380 for "efficientnet-b4", 384 for the four HRNet names;
    no such name falls to a default branch. *)
Theorem built_networks_have_their_size (model backbone : string) :
  Network.net_of model = Some backbone ->
  Detector.image_size model =
    (if String.prefix "hrnet_w" model then 384%Z
     else if String.eqb model "efficientnet-b4" then 380%Z
     else 224%Z) /\
  (Py.str_in "hrnet" model = true \/
   Py.str_in "efficientnet" model = true \/
   Py.str_in "swin" model = true \/
   Py.str_in "resnet" model = true).
Proof.
  unfold Network.net_of.
  repeat match goal with
         | |- context [String.eqb model ?s] =>
             destruct (String.eqb_spec model s) as [->|?]
         end;
    try discriminate; intros _; split; try reflexivity; vm_compute; tauto.
Qed.

(** Start-up with an empty environment. *)
Lemma initialize_model_without_checkpoint_witness :
  Requests.MODEL_AVAILABLE Inputs.server_fresh = true /\
  Config.MODEL_PATH Inputs.cfg_default = "" /\
  fst (Requests.initialize_model Inputs.platform_ok 1000 Inputs.env_unreadable
         Inputs.cfg_default Inputs.server_fresh) = true /\
  Requests.model_loaded
    (Requests.health_check Inputs.cfg_default
       (snd (Requests.initialize_model Inputs.platform_ok 1000 Inputs.env_unreadable
               Inputs.cfg_default Inputs.server_fresh))) = true.
Proof.
  split; [reflexivity | split; [reflexivity |]].
  destruct (initialize_model_without_checkpoint Inputs.env_unreadable Inputs.cfg_default
              Inputs.platform_ok 1000 Inputs.server_fresh eq_refl eq_refl eq_refl
              (or_introl eq_refl)) as [H1 H2].
  split; [now rewrite H1 | exact H2].
Defined.

(** Start-up when the pretrained network cannot be fetched. *)
Lemma initialize_model_fails_only_on_error_witness :
  Requests.initialize_model Inputs.platform_offline 1000 Inputs.env_unreadable
    Inputs.cfg_default Inputs.server_fresh = (false, Inputs.server_fresh) /\
  exists e,
    Requests.build_network Inputs.platform_offline (Config.MODEL_TYPE Inputs.cfg_default) =
      Py.Raises e.
Proof.
  split; [reflexivity |].
  destruct (initialize_model_fails_only_on_error Inputs.env_unreadable
              Inputs.cfg_default Inputs.platform_offline 1000 Inputs.server_fresh
              Inputs.server_fresh eq_refl)
    as [_ [H | [H | [[e H] | (H & _)]]]].
  - discriminate.
  - exact H.
  - discriminate.
  - exfalso. apply H. reflexivity.
Defined.

(** The name "hrnet_w64". *)
Lemma built_networks_have_their_size_witness :
  Network.net_of "hrnet_w64" = Some "hrnet_w64" /\
  Detector.image_size "hrnet_w64" = 384%Z.
Proof.
  split; [reflexivity |].
  exact (proj1 (built_networks_have_their_size "hrnet_w64" "hrnet_w64" eq_refl)).
Defined.

(** ** The number of attempts *)

Section LoaderCalls.

Import Loader.
Local Open Scope list_scope.

Context {W : Type}.
Variable E : env W.

Lemma calls_none (n : nat) (m : model W) : calls_at_most n m m.
Proof. exists []. split; [now rewrite app_nil_r | simpl; lia]. Qed.

Lemma calls_one_apply a m : calls_at_most 1 m (snd (apply_or_false E a m)).
Proof.
  exists [a]. split; [| simpl; lia].
  rewrite apply_or_false_snd. apply load_state_dict_attempts.
Qed.

Lemma calls_one_load a m : calls_at_most 1 m (snd (load_state_dict E a m)).
Proof. exists [a]. split; [apply load_state_dict_attempts | simpl; lia]. Qed.

Lemma calls_tar p m : calls_at_most 1 m (snd (_load_from_tar_file E p m)).
Proof.
  unfold _load_from_tar_file.
  destruct (torch_load E p) as [[d|w]|]; try apply calls_none.
  destruct (d !! "model"); [apply calls_one_apply |].
  destruct (d !! "state_dict"); [apply calls_one_apply | apply calls_none].
Qed.

Lemma calls_pickle p m : calls_at_most 1 m (snd (_load_from_pickle_file E p m)).
Proof.
  unfold _load_from_pickle_file.
  destruct (pickle_load E p) as [[d|w]|]; try apply calls_none.
  destruct (d !! "model"); [apply calls_one_apply |].
  destruct (d !! "state_dict"); [apply calls_one_apply |].
  destruct (d !! "weights"); [apply calls_one_apply | apply calls_none].
Qed.

Lemma calls_data_directory depth dir m :
  calls_at_most 1 m (snd (_load_from_data_directory depth E dir m)).
Proof.
  revert dir. induction depth as [|depth IH]; intros dir; simpl; [apply calls_none |].
  destruct (path_exists E _); [apply calls_pickle |].
  destruct (isdir E _); [apply IH | apply calls_none].
Qed.

Lemma calls_alternative depth p m :
  calls_at_most 1 m (snd (_try_alternative_loading depth E p m)).
Proof.
  unfold _try_alternative_loading.
  destruct (isdir E p); [apply calls_data_directory |].
  destruct (Py.endswith p ".pkl"); [apply calls_pickle |].
  destruct (isdir E _); [apply calls_data_directory | apply calls_none].
Qed.

Lemma calls_standard p m : calls_at_most 1 m (snd (standard_load E p m)).
Proof.
  unfold standard_load.
  destruct (torch_load E p) as [[d|w]|]; try apply calls_none; [| apply calls_one_load].
  destruct (d !! "model"); [apply calls_one_load |].
  destruct (d !! "state_dict"); [apply calls_one_load | apply calls_none].
Qed.

(** X25: [load_model] calls [load_state_dict] at most twice, once in the
    standard strategy and once in the alternative loading, and at most once
    on a ".tar" path; within a strategy a rejected entry is never followed
    by a try of another key. *)
Theorem load_model_calls_at_most_twice depth p m :
  calls_at_most 2 m (snd (load_model depth E p m)) /\
  (Py.endswith p ".tar" = true -> calls_at_most 1 m (snd (load_model depth E p m))) /\
  calls_at_most 1 m (snd (_load_from_tar_file E p m)) /\
  calls_at_most 1 m (snd (standard_load E p m)) /\
  calls_at_most 1 m (snd (_load_from_pickle_file E p m)).
Proof.
  assert (Hweaken : forall m', calls_at_most 1 m m' -> calls_at_most 2 m m').
  { intros m' [new [H Hlen]]. exists new. split; [exact H | lia]. }
  split; [| split; [| split; [apply calls_tar | split; [apply calls_standard | apply calls_pickle]]]].
  - unfold load_model. destruct (Py.endswith p ".tar").
    + pose proof (calls_tar p m) as H.
      destruct (_load_from_tar_file E p m) as [b m1]. now apply Hweaken.
    + pose proof (calls_standard p m) as Hs.
      destruct (standard_load E p m) as [[u|e] m1]; [now apply Hweaken |].
      pose proof (calls_alternative depth p m1) as Ha.
      destruct (_try_alternative_loading depth E p m1) as [ok m2].
      simpl in *. destruct Hs as [n1 [H1 L1]], Ha as [n2 [H2 L2]].
      assert (Hboth : calls_at_most 2 m m2).
      { exists (n1 ++ n2). split.
        - rewrite H2, H1. now rewrite <- app_assoc.
        - rewrite length_app. lia. }
      destruct ok; exact Hboth.
  - intros Htar. unfold load_model. rewrite Htar.
    pose proof (calls_tar p m) as H.
    now destruct (_load_from_tar_file E p m) as [b m1].
Qed.

End LoaderCalls.
